(** * warrior096-bot: the handlers of [main.py] and their shared state

    A shallow embedding of the bot's in-memory state ([USERS],
    [LAST_ACTION_AT], [AUDIO_FILE_ID]), of [throttled], [load_config] and
    the four message handlers, followed by the properties of the
    specification that concern them.

    Modelling choices, all taken from the source:
    - a Python [str] is a list of Unicode code points;
    - [time.time()] is a binary64 float, and so are the stored timestamps;
    - user identifiers are Python integers ([Z]);
    - every awaited call on the messaging platform is logged, and its
      outcome (a returned message or a raised exception) is given by the
      environment the handler runs in. *)

From Stdlib Require Import ZArith NArith List Bool Ascii String Floats.
From stdpp Require Import base option list gmap pretty.

Local Open Scope Z_scope.

(** ** Python strings *)

(** A [str] is a sequence of code points. *)
Abbreviation str := (list N).

(** Decoding of a UTF-8 byte sequence, used to write the string literals of
    the source (which are UTF-8 text) as they appear there. *)
Fixpoint utf8_decode (bs : list N) : str :=
  match bs with
  | [] => []
  | b0 :: r0 =>
      if (b0 <? 128)%N then b0 :: utf8_decode r0
      else match r0 with
      | [] => []
      | b1 :: r1 =>
          if (b0 <? 224)%N
          then ((b0 - 192) * 64 + (b1 - 128))%N :: utf8_decode r1
          else match r1 with
          | [] => []
          | b2 :: r2 =>
              if (b0 <? 240)%N
              then ((b0 - 224) * 4096 + (b1 - 128) * 64 + (b2 - 128))%N
                     :: utf8_decode r2
              else match r2 with
              | [] => []
              | b3 :: r3 =>
                  ((b0 - 240) * 262144 + (b1 - 128) * 4096
                   + (b2 - 128) * 64 + (b3 - 128))%N :: utf8_decode r3
              end
          end
      end
  end.

(** [py "..."] is the Python string written between the quotes. *)
Definition py (s : string) : str :=
  utf8_decode (map N_of_ascii (list_ascii_of_string s)).

(** [Py_UNICODE_ISSPACE]: the code points [str.strip()] removes. *)
Definition isspace (c : N) : bool :=
  ((9 <=? c) && (c <=? 13) || (28 <=? c) && (c <=? 32)
   || (c =? 133) || (c =? 160) || (c =? 5760)
   || (8192 <=? c) && (c <=? 8202)
   || (c =? 8232) || (c =? 8233) || (c =? 8239) || (c =? 8287)
   || (c =? 12288))%N.

Fixpoint lstrip (s : str) : str :=
  match s with
  | c :: s' => if isspace c then lstrip s' else s
  | [] => []
  end.

Definition rstrip (s : str) : str := rev (lstrip (rev s)).

(** [s.strip()] *)
Definition strip (s : str) : str := rstrip (lstrip s).

Definition is_ascii (c : N) : bool := (c <? 128)%N.

Definition ascii_tolower (c : N) : N :=
  if ((65 <=? c) && (c <=? 90))%N then (c + 32)%N else c.

(** What the interpreter supplies beyond the ASCII range, and whose tables
    are not part of the repository: the Unicode case mapping behind
    [str.lower()], the Unicode digit property behind [str.isdigit()], and
    [int()] on a string that passed [isdigit()] (it raises [ValueError] on
    digits that are not decimal ones, such as superscripts). *)
Class Interpreter := {
  unicode_lower : str → str;
  unicode_isdigit : N → bool;
  int : str → str + Z;
}.

Section Builtins.
Context `{Interpreter}.

(** [s.lower()]: an ASCII string is lowered byte-wise, any other string
    goes through the Unicode case mapping. *)
Definition lower (s : str) : str :=
  if forallb is_ascii s then map ascii_tolower s else unicode_lower s.

Definition isdigit_char (c : N) : bool :=
  if is_ascii c then ((48 <=? c) && (c <=? 57))%N else unicode_isdigit c.

(** [s.isdigit()]: at least one character, and all of them digits. *)
Definition isdigit (s : str) : bool :=
  match s with
  | [] => false
  | _ => forallb isdigit_char s
  end.
End Builtins.

(** Truth value of a string, of an optional string and of an optional
    integer in a condition ([if s:], [if not s:]). *)
Definition str_truthy (s : str) : bool :=
  match s with [] => false | _ => true end.

Definition opt_str_truthy (o : option str) : bool :=
  match o with Some s => str_truthy s | None => false end.

Definition opt_int_truthy (o : option Z) : bool :=
  match o with Some n => negb (n =? 0) | None => false end.

(** [str(n)] for a non-negative integer. *)
Definition str_of_nat (n : nat) : str :=
  map N_of_ascii (list_ascii_of_string (pretty n)).

(** ** Config *)

Record Config := {
  token : str;
  admin_id : option Z;
  pre_save_url : str;
  channel_url : str;
  audio_path : str;
}.

(** The default of the field [audio_path] of the dataclass. *)
Definition default_audio_path : str := py "audio/096_WARRIOR_hotline_8k_mono.wav".

(** A computation that returns or raises. An exception is represented by
    its text, [str(e)], the only part of it the handlers use; the exceptions
    of the model are instances of [Exception], the ones [except Exception]
    catches. *)
Abbreviation exn := str.

Inductive outcome (A : Type) : Type :=
  | Return (a : A)
  | Raise (e : exn).
Arguments Return {A} a.
Arguments Raise {A} e.

(** [os.getenv(key, default)] over the process environment. *)
Definition getenv (environ : gmap str str) (key dflt : str) : str :=
  default dflt (environ !! key).

Section LoadConfig.
Context `{Interpreter}.

Definition load_config (environ : gmap str str) : outcome Config :=
  let token := strip (getenv environ (py "BOT_TOKEN") (py "")) in
  if negb (str_truthy token) then Raise (py "BOT_TOKEN is not set")
  else
    let admin := strip (getenv environ (py "ADMIN_ID") (py "")) in
    let mk (admin_id : option Z) :=
      let pre := getenv environ (py "PRE_SAVE_URL") (py "https://example.com/presave") in
      let chan := getenv environ (py "CHANNEL_URL") (py "https://t.me/your_channel") in
      Return {| token := token; admin_id := admin_id; pre_save_url := pre;
                channel_url := chan; audio_path := default_audio_path |} in
    if isdigit admin then
      match int admin with
      | inr n => mk (Some n)
      | inl e => Raise e
      end
    else mk None.
End LoadConfig.

(** ** Simple in-memory storage *)

Record Globals := {
  USERS : gset Z;
  LAST_ACTION_AT : gmap Z float;
  AUDIO_FILE_ID : option str;
}.

(** The module-level initial values. *)
Definition initial : Globals :=
  {| USERS := ∅; LAST_ACTION_AT := ∅; AUDIO_FILE_ID := None |}.

Definition THROTTLE_SECONDS : float := 5%float.

Definition set_LAST_ACTION_AT (d : gmap Z float) (g : Globals) : Globals :=
  {| USERS := USERS g; LAST_ACTION_AT := d; AUDIO_FILE_ID := AUDIO_FILE_ID g |}.

Definition set_AUDIO_FILE_ID (a : option str) (g : Globals) : Globals :=
  {| USERS := USERS g; LAST_ACTION_AT := LAST_ACTION_AT g; AUDIO_FILE_ID := a |}.

Definition set_USERS (u : gset Z) (g : Globals) : Globals :=
  {| USERS := u; LAST_ACTION_AT := LAST_ACTION_AT g; AUDIO_FILE_ID := AUDIO_FILE_ID g |}.

(** [throttled(user_id)], with the reading [now] of [time.time()] and the
    module state passed explicitly: the answer and the state afterwards. *)
Definition throttled (now : float) (user_id : Z) (g : Globals) : bool * Globals :=
  let last := default 0%float (LAST_ACTION_AT g !! user_id) in
  if (now - last <? THROTTLE_SECONDS)%float then (true, g)
  else (false, set_LAST_ACTION_AT (<[user_id := now]> (LAST_ACTION_AT g)) g).

(** ** The messaging platform *)

Record InlineKeyboardButton := { text : str; url : str }.
Abbreviation InlineKeyboardMarkup := (list (list InlineKeyboardButton)).

Definition main_kb (pre_url channel_url : str) : InlineKeyboardMarkup :=
  [ [ {| text := py "PRE‑SAVE"; url := pre_url |} ];
    [ {| text := py "СЕКРЕТ"; url := channel_url |} ] ].

(** [hbold] wraps its argument in a bold tag (nothing in the argument used
    here needs escaping). *)
Definition hbold (s : str) : str := py "<b>" ++ s ++ py "</b>".

Definition WELCOME_TEXT : str :=
  py "Код 096 активирован." ++ [10%N]
  ++ py "Дата: " ++ hbold (py "24.08") ++ [10%N]
  ++ py "Слушай. Нажми кнопку.".

Definition HELP_TEXT : str := py "Напиши 096 — получишь голос. Кнопки ниже — ссылки.".

Definition RETRY_TEXT : str := py "Не удалось отправить голос. Попробуй ещё раз.".
Definition DENIED_TEXT : str := py "Команда только для админа.".
Definition AUDIO_CAPTION : str := py "096 WARRIOR — голос".

(** The inbound message: the sender and the text, if any. *)
Record Message := { from_user_id : Z; message_text : option str }.

(** The [audio] argument of [answer_audio]: a known file id, or a file
    read from disk and uploaded. *)
Inductive InputAudio :=
  | by_file_id (file_id : str)
  | FSInputFile (path : str).

(** The awaited calls of the handlers. *)
Inductive call :=
  | answer (text : str) (html : bool)
  | answer_audio (audio : InputAudio) (caption : str) (reply_markup : InlineKeyboardMarkup)
  | send_message (chat_id : Z) (text : str).

(** The message a successful send returns; [audio] is its optional audio
    attachment, reduced to the [file_id]. *)
Record Sent := { audio : option str }.

(** What a handler runs against: the reading of the clock ([throttled] is
    called at most once in a handler) and, for each call the handler may
    await, whether the platform returns a message or raises. No handler
    awaits the same call twice, so a function of the call covers every
    behaviour of the platform during one handler. *)
Record Env := {
  time_time : float;
  platform : call → exn + Sent;
}.

(** The state a handler acts on: the module globals and the calls awaited
    so far, oldest first. *)
Record World := { globals : Globals; awaited : list call }.

(** ** Handlers as state-and-exception computations *)

Definition io (A : Type) : Type := Env → World → outcome A * World.

#[global] Instance io_ret : MRet io := λ A a _ w, (Return a, w).
#[global] Instance io_bind : MBind io := λ A B k m env w,
  match m env w with
  | (Return a, w') => k a env w'
  | (Raise e, w') => (Raise e, w')
  end.

(** [try: body except Exception as e: handler(e)] *)
Definition try_except {A} (body : io A) (handler : exn → io A) : io A :=
  λ env w,
    match body env w with
    | (Return a, w') => (Return a, w')
    | (Raise e, w') => handler e env w'
    end.

Definition raise {A} (e : exn) : io A := λ _ w, (Raise e, w).

(** [await c] *)
Definition await (c : call) : io Sent := λ env w,
  let w' := {| globals := globals w; awaited := awaited w ++ [c] |} in
  match platform env c with
  | inr m => (Return m, w')
  | inl e => (Raise e, w')
  end.

Definition read : io Globals := λ _ w, (Return (globals w), w).

Definition update (f : Globals → Globals) : io unit := λ _ w,
  (Return (), {| globals := f (globals w); awaited := awaited w |}).

(** The call [throttled(user_id)] inside a handler. *)
Definition call_throttled (user_id : Z) : io bool := λ env w,
  let '(r, g) := throttled (time_time env) user_id (globals w) in
  (Return r, {| globals := g; awaited := awaited w |}).

(** [msg.audio.file_id]; the attribute access fails on a message without
    audio. *)
Definition audio_file_id (msg : Sent) : io str :=
  match audio msg with
  | Some fid => mret fid
  | None => raise (py "'NoneType' object has no attribute 'file_id'")
  end.

(** The branch on [AUDIO_FILE_ID], which [on_start] (inside its [try]) and
    [on_keyword] (with no [try]) both contain, statement for statement: a
    cached id that is true in a condition is sent as it is; otherwise the
    file is sent from disk and the id of the returned audio is stored. *)
Definition send_audio (cfg : Config) (kb : InlineKeyboardMarkup) : io unit :=
  g ← read;
  match AUDIO_FILE_ID g with
  | Some fid =>
      if str_truthy fid then
        _ ← await (answer_audio (by_file_id fid) AUDIO_CAPTION kb); mret ()
      else
        msg ← await (answer_audio (FSInputFile (audio_path cfg)) AUDIO_CAPTION kb);
        fid' ← audio_file_id msg;
        update (set_AUDIO_FILE_ID (Some fid'))
  | None =>
      msg ← await (answer_audio (FSInputFile (audio_path cfg)) AUDIO_CAPTION kb);
      fid' ← audio_file_id msg;
      update (set_AUDIO_FILE_ID (Some fid'))
  end.

(** A handler run to completion on the state [g], in the environment
    [env]: how it ended, the state it left and the calls it awaited. *)
Definition exec (h : io unit) (env : Env) (g : Globals) : outcome unit * World :=
  h env {| globals := g; awaited := [] |}.

(** The upload of the audio file, as both handlers issue it. *)
Definition upload (cfg : Config) : call :=
  answer_audio (FSInputFile (audio_path cfg)) AUDIO_CAPTION
    (main_kb (pre_save_url cfg) (channel_url cfg)).

(** The [except Exception as e] clause of [on_start]. *)
Definition on_start_except (cfg : Config) (e : exn) : io unit :=
  _ ← await (answer RETRY_TEXT false);
  match admin_id cfg with
  | Some a =>
      if negb (a =? 0) then
        _ ← await (send_message a (py "Ошибка аудио: " ++ e)); mret ()
      else mret ()
  | None => mret ()
  end.

Definition on_start (message : Message) (cfg : Config) : io unit :=
  update (λ g, set_USERS ({[from_user_id message]} ∪ USERS g) g);;
  t ← call_throttled (from_user_id message);
  if t : bool then mret ()
  else
    _ ← await (answer WELCOME_TEXT true);
    let kb := main_kb (pre_save_url cfg) (channel_url cfg) in
    try_except (send_audio cfg kb) (on_start_except cfg).

Definition on_help (message : Message) : io unit :=
  _ ← await (answer HELP_TEXT false); mret ().

Definition on_stats (message : Message) (cfg : Config) : io unit :=
  g ← read;
  if match admin_id cfg with
     | Some a => negb (a =? 0) && (from_user_id message =? a)
     | None => false
     end
  then _ ← await (answer (py "Users: " ++ str_of_nat (size (USERS g))) false); mret ()
  else _ ← await (answer DENIED_TEXT false); mret ().

Section Keyword.
Context `{Interpreter}.

(** The test of the first two lines of [on_keyword]. *)
Definition keyword_text (message : Message) : str :=
  lower (strip (default (py "") (message_text message))).

Definition on_keyword (message : Message) (cfg : Config) : io unit :=
  let text := keyword_text message in
  if negb (bool_decide (text = py "096")) then mret ()
  else
    t ← call_throttled (from_user_id message);
    if t : bool then mret ()
    else
      let kb := main_kb (pre_save_url cfg) (channel_url cfg) in
      send_audio cfg kb.
End Keyword.

(** The state [on_start] reaches before it sends anything: the sender
    recorded, the throttle consulted. *)
Definition started (now : float) (user_id : Z) (g : Globals) : Globals :=
  set_USERS ({[user_id]} ∪ USERS g) (throttled now user_id g).2.
Arguments started : simpl never.

(** ** Dispatch *)

(** An inbound update, by the filter of [main] it passes: the commands
    [start], [help] and [stats], and any other text message. *)
Inductive Update :=
  | start_command (message : Message)
  | help_command (message : Message)
  | stats_command (message : Message)
  | text_message (message : Message).

Section Dispatch.
Context `{Interpreter}.

(** The handler registered for an update. *)
Definition dispatch (cfg : Config) (u : Update) : io unit :=
  match u with
  | start_command m => on_start m cfg
  | help_command m => on_help m
  | stats_command m => on_stats m cfg
  | text_message m => on_keyword m cfg
  end.

(** The handler of [u] run to completion on the state [g]. *)
Definition handle (cfg : Config) (u : Update) (env : Env) (g : Globals)
  : outcome unit * World :=
  exec (dispatch cfg u) env g.

(** The state after a handler, however it ended. *)
Definition after (cfg : Config) (u : Update) (env : Env) (g : Globals) : Globals :=
  globals (handle cfg u env g).2.

(** A sequence of updates handled one after the other, each handler run
    to completion before the next starts; an exception that leaves a
    handler ends that handler only. *)
Fixpoint run (cfg : Config) (evs : list (Update * Env)) (g : Globals) : Globals :=
  match evs with
  | [] => g
  | (u, env) :: evs' => run cfg evs' (after cfg u env g)
  end.

End Dispatch.

(** ** Bootstrap *)

(** What [main] does to reach the platform, in order: the call of the
    constructor [Bot(token=...)], and the start of the polling loop. *)
Inductive startup :=
  | make_bot (token : str)
  | start_polling.

(** The constructor [Bot(token=...)] belongs to the messaging library, which
    is not part of the repository: it returns, or raises on a token it does
    not accept. *)
Class Library := {
  Bot_init : str → exn + unit;
}.

Section Bootstrap.
Context `{Interpreter} {library : Library}.

(** [main()] up to the polling loop: how it got there ([Return] when the
    loop is started) and the steps taken. The configuration is loaded
    first; the bot is then constructed, which may raise; the dispatcher and
    the registration of the handlers touch nothing outside the process. *)
Definition main (environ : gmap str str) : outcome unit * list startup :=
  match load_config environ with
  | Raise e => (Raise e, [])
  | Return cfg =>
      match Bot_init (token cfg) with
      | inl e => (Raise e, [make_bot (token cfg)])
      | inr _ => (Return (), [make_bot (token cfg); start_polling])
      end
  end.
End Bootstrap.

(** The calls that upload the audio file from disk. *)
Definition is_upload (c : call) : bool :=
  match c with
  | answer_audio (FSInputFile _) _ _ => true
  | _ => false
  end.

(** The calls that send audio. *)
Definition is_audio (c : call) : bool :=
  match c with
  | answer_audio _ _ _ => true
  | _ => false
  end.

(** An interpreter whose tables beyond ASCII are empty and whose [int]
    reads decimal ASCII digits; enough to run the handlers on ASCII input. *)
Definition int_ascii (s : str) : str + Z :=
  if forallb (λ c, (48 <=? c) && (c <=? 57))%N s
  then inr (fold_left (λ acc c, 10 * acc + (Z.of_N c - 48)) s 0)
  else inl (py "invalid literal for int() with base 10").

Definition ascii_interpreter : Interpreter :=
  {| unicode_lower := λ s, s; unicode_isdigit := λ _, false; int := int_ascii |}.

(** A library whose constructor accepts the tokens that hold a colon, for
    running [main] on sample environments. *)
Definition colon_library : Library :=
  {| Bot_init := λ t, if bool_decide (58%N ∈ t) then inr ()
                      else inl (py "Token is invalid!") |}.

(** The one message [on_stats] sends. *)
Definition stats_reply (cfg : Config) (m : Message) (g : Globals) : call :=
  if opt_int_truthy (admin_id cfg)
     && bool_decide (admin_id cfg = Some (from_user_id m))
  then answer (py "Users: " ++ str_of_nat (size (USERS g))) false
  else answer DENIED_TEXT false.

(** The updates the start handler receives. *)
Definition is_start (u : Update) : bool :=
  match u with start_command _ => true | _ => false end.

(** Whether the upload fails in [env]: the send raises, or the message it
    returns carries no file id. *)
Definition upload_fails (env : Env) (cfg : Config) : bool :=
  match platform env (upload cfg) with
  | inr {| audio := Some _ |} => false
  | _ => true
  end.

(** ** Sample inputs *)

Definition sample_cfg (admin : option Z) : Config :=
  {| token := py "1:t"; admin_id := admin;
     pre_save_url := py "https://example.com/presave";
     channel_url := py "https://t.me/your_channel";
     audio_path := default_audio_path |}.

Definition message_from (user_id : Z) (s : string) : Message :=
  {| from_user_id := user_id; message_text := Some (py s) |}.

(** A platform on which every call succeeds, an audio send returning the
    file id [fid]. *)
Definition platform_up (fid : str) (c : call) : exn + Sent :=
  match c with
  | answer_audio _ _ _ => inr {| audio := Some fid |}
  | _ => inr {| audio := None |}
  end.

(** A platform on which sending audio raises and text messages go through. *)
Definition platform_audio_down (c : call) : exn + Sent :=
  match c with
  | answer_audio _ _ _ => inl (py "Bad Gateway")
  | _ => inr {| audio := None |}
  end.

(** A platform on which sending audio raises and so does a message outside
    the chat of the update. *)
Definition platform_admin_down (c : call) : exn + Sent :=
  match c with
  | answer_audio _ _ _ => inl (py "Bad Gateway")
  | send_message _ _ => inl (py "Forbidden")
  | answer _ _ => inr {| audio := None |}
  end.

Definition at_time (now : float) (p : call → exn + Sent) : Env :=
  {| time_time := now; platform := p |}.

(** The state after a first start update, at time 10, whose upload the
    platform answers with an empty file id. *)
Definition after_empty_upload : Globals :=
  run (H := ascii_interpreter) (sample_cfg None)
    [(start_command (message_from 7 "/start"), at_time 10 (platform_up (py "")))]
    initial.

(** ** Sequences of calls and of updates *)

(** The state after the calls [throttled(user)] made, in order, at the given
    readings of the clock. *)
Fixpoint throttled_calls (calls : list (float * Z)) (g : Globals) : Globals :=
  match calls with
  | [] => g
  | (now, v) :: calls' => throttled_calls calls' (throttled now v g).2
  end.

(** The readings at which those calls admitted the user [u], in order. *)
Fixpoint admitted_times (u : Z) (calls : list (float * Z)) (g : Globals) : list float :=
  match calls with
  | [] => []
  | (now, v) :: calls' =>
      if bool_decide (v = u) && negb (throttled now v g).1
      then now :: admitted_times u calls' (throttled now v g).2
      else admitted_times u calls' (throttled now v g).2
  end.

(** No element is closer to the one before it than the window, by the
    comparison [throttled] makes. *)
Fixpoint spaced (ts : list float) : bool :=
  match ts with
  | a :: (b :: _) as l => negb (b - a <? THROTTLE_SECONDS)%float && spaced l
  | _ => true
  end.

(** The message an update carries. *)
Definition update_message (u : Update) : Message :=
  match u with
  | start_command m | help_command m | stats_command m | text_message m => m
  end.

(** The updates of the help and stats commands. *)
Definition is_query (u : Update) : bool :=
  match u with
  | help_command _ | stats_command _ => true
  | _ => false
  end.

(** The senders of the start commands of a sequence, in order. *)
Fixpoint start_senders (evs : list (Update * Env)) : list Z :=
  match evs with
  | [] => []
  | (start_command m, _) :: evs' => from_user_id m :: start_senders evs'
  | _ :: evs' => start_senders evs'
  end.

(** The number of audio sends among the calls. *)
Definition audio_sends (l : list call) : nat := length (List.filter is_audio l).

Section Gated.
Context `{Interpreter}.

(** The updates whose handler consults the throttle: the start command, and
    a text that is the keyword. *)
Definition gated (u : Update) : bool :=
  match u with
  | start_command _ => true
  | text_message m => bool_decide (keyword_text m = py "096")
  | _ => false
  end.

(** The senders of the gated updates of a sequence. *)
Fixpoint gated_senders (evs : list (Update * Env)) : list Z :=
  match evs with
  | [] => []
  | (u, _) :: evs' =>
      if gated u then from_user_id (update_message u) :: gated_senders evs'
      else gated_senders evs'
  end.
End Gated.

(** * Properties *)

(** ** Comparison of floats *)

Lemma SFcompare_antisym (x y : spec_float) (c : comparison) :
  SFcompare x y = Some c → SFcompare y x = Some (CompOpp c).
Proof.
  destruct x as [sx|sx| |sx mx ex], y as [sy|sy| |sy my ey]; simpl;
    try discriminate;
    try (intros [= <-]; repeat match goal with b : bool |- _ => destruct b end;
         reflexivity).
  intros [= <-]. f_equal.
  destruct sx, sy; simpl; try reflexivity;
    rewrite (Z.compare_antisym ex ey);
    change (Pos.compare_cont Eq my mx) with (Pos.compare my mx);
    change (Pos.compare_cont Eq mx my) with (Pos.compare mx my);
    rewrite (Pos.compare_antisym mx my);
    destruct (ex ?= ey)%Z; simpl; try reflexivity;
    destruct (mx ?= my)%positive; reflexivity.
Qed.

(** [x <= y] excludes [y < x] (and holds of no NaN). *)
Lemma leb_not_ltb (x y : float) :
  (x <=? y)%float = true → (y <? x)%float = false.
Proof.
  rewrite leb_spec, ltb_spec. unfold SFleb, SFltb.
  destruct (SFcompare (Prim2SF x) (Prim2SF y)) as [c|] eqn:E; [|discriminate].
  rewrite (SFcompare_antisym _ _ _ E).
  destruct c; simpl; congruence.
Qed.

(** ** The throttle *)

Lemma throttled_rejected (now : float) (u : Z) (g : Globals) :
  (throttled now u g).1 = true → (throttled now u g).2 = g.
Proof. unfold throttled. by case_match. Qed.

Lemma throttled_admitted (now : float) (u : Z) (g : Globals) :
  (throttled now u g).1 = false →
  (throttled now u g).2 = set_LAST_ACTION_AT (<[u := now]> (LAST_ACTION_AT g)) g.
Proof. unfold throttled. by case_match. Qed.

Lemma throttled_other (now : float) (u v : Z) (g : Globals) :
  v ≠ u → LAST_ACTION_AT (throttled now u g).2 !! v = LAST_ACTION_AT g !! v.
Proof.
  intros Hne. unfold throttled. case_match; simpl; [done|].
  by rewrite lookup_insert_ne.
Qed.

Lemma throttled_USERS (now : float) (u : Z) (g : Globals) :
  USERS (throttled now u g).2 = USERS g.
Proof. unfold throttled. by case_match. Qed.

Lemma throttled_AUDIO_FILE_ID (now : float) (u : Z) (g : Globals) :
  AUDIO_FILE_ID (throttled now u g).2 = AUDIO_FILE_ID g.
Proof. unfold throttled. by case_match. Qed.

(** After an admission at [t1], the answer at [t2] is the comparison of
    [t2 - t1] with the window. *)
Lemma throttled_again (u : Z) (t1 t2 : float) (g : Globals) :
  (throttled t1 u g).1 = false →
  (throttled t2 u (throttled t1 u g).2).1 = (t2 - t1 <? THROTTLE_SECONDS)%float.
Proof.
  intros Hadm. rewrite (throttled_admitted _ _ _ Hadm).
  unfold throttled at 1. simpl. rewrite lookup_insert_eq. simpl.
  by case_match.
Qed.

(** C1. For a user [u] admitted at [t1], a second call at a later time [t2]
    is rejected when [t2 - t1] is below the five-second window and admitted
    when it is five seconds or more; a rejected call leaves the state as it
    was, an admitted call records the time of the call for [u], and in
    either case the entries of the other users stay as they were. *)
Theorem throttled_window (u : Z) (t1 t2 : float) (g : Globals) :
  (t1 <? t2)%float = true →
  (throttled t1 u g).1 = false →
  let g1 := (throttled t1 u g).2 in
  ((t2 - t1 <? 5)%float = true → throttled t2 u g1 = (true, g1))
  ∧ ((5 <=? t2 - t1)%float = true →
     throttled t2 u g1
     = (false, set_LAST_ACTION_AT (<[u := t2]> (LAST_ACTION_AT g1)) g1))
  ∧ (∀ now v g', (throttled now v g').1 = true → (throttled now v g').2 = g')
  ∧ (∀ now v g', (throttled now v g').1 = false →
       LAST_ACTION_AT (throttled now v g').2 !! v = Some now)
  ∧ (∀ now v v' g', v' ≠ v →
       LAST_ACTION_AT (throttled now v g').2 !! v' = LAST_ACTION_AT g' !! v').
Proof.
  intros _ Hadm g1. repeat split.
  - intros Hlt. apply injective_projections; simpl.
    + unfold g1. by rewrite throttled_again.
    + apply throttled_rejected. unfold g1. by rewrite throttled_again.
  - intros Hge. apply leb_not_ltb in Hge.
    assert ((throttled t2 u g1).1 = false) as Hadm2
      by (unfold g1; by rewrite throttled_again).
    apply injective_projections; simpl; [done|].
    by apply throttled_admitted.
  - intros. by apply throttled_rejected.
  - intros now v g' Hv. rewrite (throttled_admitted _ _ _ Hv). simpl.
    apply lookup_insert_eq.
  - intros. by apply throttled_other.
Qed.

(** User 7 is admitted at time 10 on the initial state, rejected at 12 and
    admitted at 16. *)
Lemma throttled_window_witness :
  (throttled 12 7 (throttled 10 7 initial).2).1 = true
  ∧ (throttled 16 7 (throttled 10 7 initial).2).1 = false.
Proof.
  split.
  - assert ((10 <? 12)%float = true) as H1 by reflexivity.
    assert ((throttled 10 7 initial).1 = false) as H2 by reflexivity.
    rewrite (proj1 (throttled_window 7 10 12 initial H1 H2) eq_refl).
    reflexivity.
  - assert ((10 <? 16)%float = true) as H1 by reflexivity.
    assert ((throttled 10 7 initial).1 = false) as H2 by reflexivity.
    rewrite (proj1 (proj2 (throttled_window 7 10 16 initial H1 H2)) eq_refl).
    reflexivity.
Defined.

(** ** Running a handler *)

(** Unfolds a handler into its state updates and awaited calls. *)
Ltac unfold_io :=
  cbv beta iota zeta delta
    [handle after exec dispatch on_start on_help on_stats on_keyword
     try_except raise await read update call_throttled
     mbind io_bind mret io_ret] in *.

(** The two branches of [send_audio]. *)
Lemma send_audio_cached (cfg : Config) (kb : InlineKeyboardMarkup)
    (env : Env) (w : World) (fid : str) :
  AUDIO_FILE_ID (globals w) = Some fid → fid ≠ [] →
  send_audio cfg kb env w
  = (match platform env (answer_audio (by_file_id fid) AUDIO_CAPTION kb) with
     | inr _ => Return ()
     | inl e => Raise e
     end,
     {| globals := globals w;
        awaited := awaited w ++ [answer_audio (by_file_id fid) AUDIO_CAPTION kb] |}).
Proof.
  intros Hfid Hne. unfold send_audio. unfold_io. rewrite Hfid.
  destruct fid; [done|]. simpl. by destruct (platform env _).
Qed.

Lemma send_audio_upload (cfg : Config) (kb : InlineKeyboardMarkup)
    (env : Env) (w : World) :
  opt_str_truthy (AUDIO_FILE_ID (globals w)) = false →
  let c := answer_audio (FSInputFile (audio_path cfg)) AUDIO_CAPTION kb in
  send_audio cfg kb env w
  = match platform env c with
    | inr {| audio := Some fid |} =>
        (Return (), {| globals := set_AUDIO_FILE_ID (Some fid) (globals w);
                       awaited := awaited w ++ [c] |})
    | inr {| audio := None |} =>
        (Raise (py "'NoneType' object has no attribute 'file_id'"),
         {| globals := globals w; awaited := awaited w ++ [c] |})
    | inl e => (Raise e, {| globals := globals w; awaited := awaited w ++ [c] |})
    end.
Proof.
  intros Hfalsy c. unfold send_audio, audio_file_id. unfold_io.
  destruct (AUDIO_FILE_ID (globals w)) as [[|]|]; simpl in *; try done;
    subst c; destruct (platform env _) as [e|[[fid|]]]; done.
Qed.

(** What [send_audio] leaves behind, whichever branch it takes: exactly one
    more awaited call, an audio send; the users and timestamps as they
    were. *)
Lemma send_audio_effect (cfg : Config) (kb : InlineKeyboardMarkup)
    (env : Env) (w : World) :
  ∃ a, awaited (send_audio cfg kb env w).2
       = awaited w ++ [answer_audio a AUDIO_CAPTION kb]
     ∧ USERS (globals (send_audio cfg kb env w).2) = USERS (globals w)
     ∧ LAST_ACTION_AT (globals (send_audio cfg kb env w).2)
       = LAST_ACTION_AT (globals w).
Proof.
  destruct (opt_str_truthy (AUDIO_FILE_ID (globals w))) eqn:E.
  - destruct (AUDIO_FILE_ID (globals w)) as [fid|] eqn:Ef; [|done].
    assert (fid ≠ []) as Hne by (by destruct fid).
    rewrite (send_audio_cached _ _ _ _ _ Ef Hne). by eexists.
  - rewrite (send_audio_upload _ _ _ _ E).
    destruct (platform env _) as [e|[[fid|]]]; by eexists.
Qed.

(** The except clause of [on_start]: the retry message, then the message to
    the administrator when one is configured (and not 0). *)
Lemma on_start_except_eq (cfg : Config) (e : exn) (env : Env) (w : World) :
  on_start_except cfg e env w
  = let w1 := {| globals := globals w;
                 awaited := awaited w ++ [answer RETRY_TEXT false] |} in
    match platform env (answer RETRY_TEXT false) with
    | inl e1 => (Raise e1, w1)
    | inr _ =>
        if opt_int_truthy (admin_id cfg) then
          let c := send_message (default 0 (admin_id cfg)) (py "Ошибка аудио: " ++ e) in
          (match platform env c with inl e2 => Raise e2 | inr _ => Return () end,
           {| globals := globals w; awaited := awaited w1 ++ [c] |})
        else (Return (), w1)
    end.
Proof.
  unfold on_start_except. unfold_io. simpl.
  destruct (platform env (answer RETRY_TEXT false)); [done|].
  destruct (admin_id cfg) as [a|]; simpl; [|done].
  destruct (negb (a =? 0)); simpl; [|done].
  by destruct (platform env _).
Qed.

(** The answer of [throttled] depends on the timestamps only. *)
Lemma throttled_set_USERS (now : float) (u : Z) (U : gset Z) (g : Globals) :
  throttled now u (set_USERS U g)
  = ((throttled now u g).1, set_USERS U (throttled now u g).2).
Proof. unfold throttled. simpl. by case_match. Qed.

Lemma on_start_throttled (m : Message) (cfg : Config) (env : Env) (g : Globals) :
  (throttled (time_time env) (from_user_id m) g).1 = true →
  exec (on_start m cfg) env g
  = (Return (), {| globals := set_USERS ({[from_user_id m]} ∪ USERS g) g;
                   awaited := [] |}).
Proof.
  intros Ht. unfold_io. simpl. rewrite throttled_set_USERS, Ht. simpl.
  by rewrite (throttled_rejected _ _ _ Ht).
Qed.

Lemma on_start_admitted (m : Message) (cfg : Config) (env : Env) (g : Globals) :
  (throttled (time_time env) (from_user_id m) g).1 = false →
  exec (on_start m cfg) env g
  = let w1 := {| globals := started (time_time env) (from_user_id m) g;
                 awaited := [answer WELCOME_TEXT true] |} in
    match platform env (answer WELCOME_TEXT true) with
    | inl e => (Raise e, w1)
    | inr _ =>
        match send_audio cfg (main_kb (pre_save_url cfg) (channel_url cfg)) env w1 with
        | (Return a, w2) => (Return a, w2)
        | (Raise e, w2) => on_start_except cfg e env w2
        end
    end.
Proof.
  intros Ht. unfold_io. simpl. rewrite throttled_set_USERS, Ht. simpl.
  by destruct (platform env (answer WELCOME_TEXT true)).
Qed.

Section KeywordPaths.
Context `{Interpreter}.

Lemma on_keyword_other (m : Message) (cfg : Config) (env : Env) (g : Globals) :
  keyword_text m ≠ py "096" →
  exec (on_keyword m cfg) env g = (Return (), {| globals := g; awaited := [] |}).
Proof.
  intros Hne. unfold_io. by rewrite bool_decide_eq_false_2.
Qed.

Lemma on_keyword_throttled (m : Message) (cfg : Config) (env : Env) (g : Globals) :
  keyword_text m = py "096" →
  (throttled (time_time env) (from_user_id m) g).1 = true →
  exec (on_keyword m cfg) env g = (Return (), {| globals := g; awaited := [] |}).
Proof.
  intros Hkw Ht. unfold_io. rewrite bool_decide_eq_true_2 by done. simpl.
  destruct (throttled _ _ _) as [t g1] eqn:E. simpl in *. subst t.
  pose proof (throttled_rejected (time_time env) (from_user_id m) g) as Hg.
  rewrite E in Hg. simpl in Hg. by rewrite Hg.
Qed.

Lemma on_keyword_admitted (m : Message) (cfg : Config) (env : Env) (g : Globals) :
  keyword_text m = py "096" →
  (throttled (time_time env) (from_user_id m) g).1 = false →
  exec (on_keyword m cfg) env g
  = send_audio cfg (main_kb (pre_save_url cfg) (channel_url cfg)) env
      {| globals := (throttled (time_time env) (from_user_id m) g).2;
         awaited := [] |}.
Proof.
  intros Hkw Ht. unfold_io. rewrite bool_decide_eq_true_2 by done. simpl.
  destruct (throttled _ _ _) as [t g1] eqn:E. simpl in *. by subst t.
Qed.

End KeywordPaths.

Lemma on_start_except_globals (cfg : Config) (e : exn) (env : Env) (w : World) :
  globals (on_start_except cfg e env w).2 = globals w.
Proof.
  rewrite on_start_except_eq. simpl.
  destruct (platform env (answer RETRY_TEXT false)); [done|].
  by destruct (opt_int_truthy (admin_id cfg)).
Qed.

(** The state [on_start] leaves when it was admitted: the one it reached
    before sending, or, once the welcome text went through, the one
    [send_audio] left. *)
Lemma on_start_admitted_globals (m : Message) (cfg : Config) (env : Env) (g : Globals) :
  (throttled (time_time env) (from_user_id m) g).1 = false →
  let w1 := {| globals := started (time_time env) (from_user_id m) g;
               awaited := [answer WELCOME_TEXT true] |} in
  globals (exec (on_start m cfg) env g).2
  = match platform env (answer WELCOME_TEXT true) with
    | inl _ => globals w1
    | inr _ =>
        globals (send_audio cfg (main_kb (pre_save_url cfg) (channel_url cfg)) env w1).2
    end.
Proof.
  intros Ht w1. rewrite (on_start_admitted _ _ _ _ Ht). simpl. fold w1.
  destruct (platform env (answer WELCOME_TEXT true)); [done|].
  destruct (send_audio _ _ _ _) as [[a|e] w2]; [done|].
  apply on_start_except_globals.
Qed.

Lemma on_help_eq (m : Message) (env : Env) (g : Globals) :
  exec (on_help m) env g
  = (match platform env (answer HELP_TEXT false) with
     | inl e => Raise e
     | inr _ => Return ()
     end, {| globals := g; awaited := [answer HELP_TEXT false] |}).
Proof. unfold_io. simpl. by destruct (platform env _). Qed.

Lemma on_stats_eq (m : Message) (cfg : Config) (env : Env) (g : Globals) :
  exec (on_stats m cfg) env g
  = (match platform env (stats_reply cfg m g) with
     | inl e => Raise e
     | inr _ => Return ()
     end, {| globals := g; awaited := [stats_reply cfg m g] |}).
Proof.
  unfold_io. unfold stats_reply. simpl.
  destruct (admin_id cfg) as [a|]; simpl.
  - destruct (Z.eqb_spec a 0) as [->|Ha]; simpl.
    + by destruct (platform env _).
    + destruct (Z.eqb_spec (from_user_id m) a) as [->|Hm]; simpl.
      * rewrite bool_decide_eq_true_2 by done. by destruct (platform env _).
      * rewrite bool_decide_eq_false_2 by congruence. by destruct (platform env _).
  - by destruct (platform env _).
Qed.

Section Users.
Context `{Interpreter}.

Lemma on_start_USERS (cfg : Config) (m : Message) (env : Env) (g : Globals) :
  USERS (after cfg (start_command m) env g) = {[from_user_id m]} ∪ USERS g.
Proof.
  unfold after, handle, dispatch.
  destruct (throttled (time_time env) (from_user_id m) g).1 eqn:Ht.
  - by rewrite (on_start_throttled _ _ _ _ Ht).
  - rewrite (on_start_admitted_globals _ _ _ _ Ht).
    destruct (platform env (answer WELCOME_TEXT true)); [done|].
    destruct (send_audio_effect cfg (main_kb (pre_save_url cfg) (channel_url cfg)) env
                {| globals := started (time_time env) (from_user_id m) g;
                   awaited := [answer WELCOME_TEXT true] |}) as (a & _ & -> & _).
    done.
Qed.

Lemma on_keyword_USERS (cfg : Config) (m : Message) (env : Env) (g : Globals) :
  USERS (after cfg (text_message m) env g) = USERS g.
Proof.
  unfold after, handle, dispatch.
  destruct (decide (keyword_text m = py "096")) as [Hkw|Hkw].
  - destruct (throttled (time_time env) (from_user_id m) g).1 eqn:Ht.
    + by rewrite (on_keyword_throttled _ _ _ _ Hkw Ht).
    + rewrite (on_keyword_admitted _ _ _ _ Hkw Ht).
      destruct (send_audio_effect cfg (main_kb (pre_save_url cfg) (channel_url cfg)) env
                  {| globals := (throttled (time_time env) (from_user_id m) g).2;
                     awaited := [] |}) as (a & _ & -> & _).
      apply throttled_USERS.
  - by rewrite (on_keyword_other _ _ _ _ Hkw).
Qed.

(** The users after a handler: the sender added by [on_start], nothing
    changed by the other three. *)
Lemma after_USERS (cfg : Config) (u : Update) (env : Env) (g : Globals) :
  USERS (after cfg u env g)
  = match u with
    | start_command m => {[from_user_id m]} ∪ USERS g
    | _ => USERS g
    end.
Proof.
  destruct u as [m|m|m|m].
  - apply on_start_USERS.
  - unfold after, handle, dispatch. by rewrite on_help_eq.
  - unfold after, handle, dispatch. by rewrite on_stats_eq.
  - apply on_keyword_USERS.
Qed.

Lemma run_USERS_subseteq (cfg : Config) (evs : list (Update * Env)) (g : Globals) :
  USERS g ⊆ USERS (run cfg evs g).
Proof.
  revert g. induction evs as [|[u env] evs IH]; intros g; simpl; [done|].
  etrans; [|apply IH]. rewrite after_USERS. destruct u; set_solver.
Qed.

Lemma run_USERS_no_start (cfg : Config) (evs : list (Update * Env)) (g : Globals) :
  forallb (λ ev, negb (is_start ev.1)) evs = true →
  USERS (run cfg evs g) = USERS g.
Proof.
  revert g. induction evs as [|[u env] evs IH]; intros g; simpl; [done|].
  intros [Hu Hevs]%andb_true_iff. rewrite (IH _ Hevs), after_USERS.
  by destruct u.
Qed.

(** C7. The start handler adds the sender to [USERS] whatever the throttle
    decides and whatever the platform answers; the help, stats and keyword
    handlers leave [USERS] as it was; so over any sequence of updates the
    set, and the count the stats command reports, only grow, and a sequence
    without a start command leaves them unchanged. *)
Theorem USERS_grow_only_on_start (cfg : Config) :
  (∀ m env g, USERS (after cfg (start_command m) env g)
              = {[from_user_id m]} ∪ USERS g)
  ∧ (∀ m env g, USERS (after cfg (help_command m) env g) = USERS g)
  ∧ (∀ m env g, USERS (after cfg (stats_command m) env g) = USERS g)
  ∧ (∀ m env g, USERS (after cfg (text_message m) env g) = USERS g)
  ∧ (∀ evs g, USERS g ⊆ USERS (run cfg evs g)
              ∧ (size (USERS g) ≤ size (USERS (run cfg evs g)))%nat)
  ∧ (∀ evs g, forallb (λ ev, negb (is_start ev.1)) evs = true →
              USERS (run cfg evs g) = USERS g).
Proof.
  repeat split.
  - intros. apply on_start_USERS.
  - intros. by rewrite after_USERS.
  - intros. by rewrite after_USERS.
  - intros. by rewrite after_USERS.
  - apply run_USERS_subseteq.
  - apply subseteq_size, run_USERS_subseteq.
  - intros. by apply run_USERS_no_start.
Qed.

End Users.

Lemma USERS_grow_only_on_start_witness :
  USERS (run (H := ascii_interpreter) (sample_cfg None)
           [(text_message (message_from 7 "096"), at_time 10 (platform_up (py "F1")));
            (stats_command (message_from 8 "/stats"), at_time 11 (platform_up (py "F1")))]
           initial)
  = USERS initial.
Proof.
  pose proof (USERS_grow_only_on_start (H := ascii_interpreter) (sample_cfg None))
    as (_ & _ & _ & _ & _ & Hrun).
  apply Hrun. reflexivity.
Defined.

(** ** The paths of [on_start] once admitted and past the welcome text *)

Lemma started_AUDIO_FILE_ID (now : float) (u : Z) (g : Globals) :
  AUDIO_FILE_ID (started now u g) = AUDIO_FILE_ID g.
Proof. unfold started. simpl. apply throttled_AUDIO_FILE_ID. Qed.

Lemma started_LAST_ACTION_AT (now : float) (u : Z) (g : Globals) :
  (throttled now u g).1 = false →
  LAST_ACTION_AT (started now u g) = <[u := now]> (LAST_ACTION_AT g).
Proof. intros Ht. unfold started. simpl. by rewrite (throttled_admitted _ _ _ Ht). Qed.

Lemma on_start_cached (m : Message) (cfg : Config) (env : Env) (g : Globals)
    (fid : str) (welcome : Sent) :
  (throttled (time_time env) (from_user_id m) g).1 = false →
  platform env (answer WELCOME_TEXT true) = inr welcome →
  AUDIO_FILE_ID g = Some fid → fid ≠ [] →
  let c := answer_audio (by_file_id fid) AUDIO_CAPTION
             (main_kb (pre_save_url cfg) (channel_url cfg)) in
  let w2 := {| globals := started (time_time env) (from_user_id m) g;
               awaited := [answer WELCOME_TEXT true; c] |} in
  exec (on_start m cfg) env g
  = match platform env c with
    | inr _ => (Return (), w2)
    | inl e => on_start_except cfg e env w2
    end.
Proof.
  intros Ht Hw Hfid Hne c w2. rewrite (on_start_admitted _ _ _ _ Ht), Hw. simpl.
  rewrite (send_audio_cached _ _ _ _ fid);
    [|simpl; by rewrite ?started_AUDIO_FILE_ID, ?throttled_AUDIO_FILE_ID|done].
  simpl. fold c. by destruct (platform env c).
Qed.

Lemma on_start_upload (m : Message) (cfg : Config) (env : Env) (g : Globals)
    (welcome : Sent) :
  (throttled (time_time env) (from_user_id m) g).1 = false →
  platform env (answer WELCOME_TEXT true) = inr welcome →
  opt_str_truthy (AUDIO_FILE_ID g) = false →
  let g1 := started (time_time env) (from_user_id m) g in
  let w2 := {| globals := g1; awaited := [answer WELCOME_TEXT true; upload cfg] |} in
  exec (on_start m cfg) env g
  = match platform env (upload cfg) with
    | inr {| audio := Some fid |} =>
        (Return (), {| globals := set_AUDIO_FILE_ID (Some fid) g1;
                       awaited := [answer WELCOME_TEXT true; upload cfg] |})
    | inr {| audio := None |} =>
        on_start_except cfg (py "'NoneType' object has no attribute 'file_id'") env w2
    | inl e => on_start_except cfg e env w2
    end.
Proof.
  intros Ht Hw Hfalsy g1 w2. rewrite (on_start_admitted _ _ _ _ Ht), Hw. simpl.
  rewrite send_audio_upload
    by (simpl; by rewrite ?started_AUDIO_FILE_ID, ?throttled_AUDIO_FILE_ID).
  simpl. fold (upload cfg).
  by destruct (platform env (upload cfg)) as [e|[[fid|]]].
Qed.

(** The calls [on_start_except] adds are text messages. *)
Lemma on_start_except_awaited (cfg : Config) (e : exn) (env : Env) (w : World) :
  ∃ l, awaited (on_start_except cfg e env w).2 = awaited w ++ l
     ∧ Forall (λ c, is_audio c = false) l.
Proof.
  rewrite on_start_except_eq. simpl.
  destruct (platform env (answer RETRY_TEXT false)).
  - eexists [_]. split; [done|]. by repeat constructor.
  - destruct (opt_int_truthy (admin_id cfg)); simpl.
    + eexists [_; _]. rewrite <- app_assoc. split; [done|]. by repeat constructor.
    + eexists [_]. split; [done|]. by repeat constructor.
Qed.

(** ** The cached file id *)

Section Cache.
Context `{Interpreter}.

(** With a non-empty file id cached, a handler leaves it in place and sends
    audio only by that id. *)
Lemma handle_cached (cfg : Config) (u : Update) (env : Env) (g : Globals) (fid : str) :
  AUDIO_FILE_ID g = Some fid → fid ≠ [] →
  AUDIO_FILE_ID (after cfg u env g) = Some fid
  ∧ Forall (λ c, is_audio c = true →
                 c = answer_audio (by_file_id fid) AUDIO_CAPTION
                       (main_kb (pre_save_url cfg) (channel_url cfg)))
      (awaited (handle cfg u env g).2).
Proof.
  intros Hfid Hne. unfold after, handle, dispatch.
  destruct u as [m|m|m|m].
  - destruct (throttled (time_time env) (from_user_id m) g).1 eqn:Ht.
    { rewrite (on_start_throttled _ _ _ _ Ht). simpl. by split. }
    destruct (platform env (answer WELCOME_TEXT true)) as [e|welcome] eqn:Hw.
    { rewrite (on_start_admitted _ _ _ _ Ht), Hw. simpl.
      rewrite throttled_AUDIO_FILE_ID. split; [done|]. by repeat constructor. }
    rewrite (on_start_cached _ _ _ _ _ _ Ht Hw Hfid Hne).
    destruct (platform env (answer_audio _ _ _)) as [e|s].
    + rewrite on_start_except_globals.
      destruct (on_start_except_awaited cfg e env
        {| globals := started (time_time env) (from_user_id m) g;
           awaited := [answer WELCOME_TEXT true;
                       answer_audio (by_file_id fid) AUDIO_CAPTION
                         (main_kb (pre_save_url cfg) (channel_url cfg))] |})
        as (l & -> & Hl).
      simpl. rewrite throttled_AUDIO_FILE_ID. split; [done|].
      repeat constructor; try done.
      eapply Forall_impl; [exact Hl|]. simpl. intros c Hc. by rewrite Hc.
    + simpl. rewrite throttled_AUDIO_FILE_ID. split; [done|].
      by repeat constructor.
  - rewrite on_help_eq. simpl. split; [done|]. by repeat constructor.
  - rewrite on_stats_eq. simpl. split; [done|]. repeat constructor.
    unfold stats_reply. by case_match.
  - destruct (decide (keyword_text m = py "096")) as [Hkw|Hkw].
    2:{ rewrite (on_keyword_other _ _ _ _ Hkw). simpl. by split. }
    destruct (throttled (time_time env) (from_user_id m) g).1 eqn:Ht.
    { rewrite (on_keyword_throttled _ _ _ _ Hkw Ht). simpl. by split. }
    rewrite (on_keyword_admitted _ _ _ _ Hkw Ht).
    rewrite (send_audio_cached _ _ _ _ fid);
      [|simpl; by rewrite throttled_AUDIO_FILE_ID|done].
    simpl. rewrite throttled_AUDIO_FILE_ID. split; [done|]. by repeat constructor.
Qed.

(** A handler uploads the file only when no file id, or an empty one, is
    cached. *)
Lemma upload_only_unset (cfg : Config) (u : Update) (env : Env) (g : Globals) :
  Exists (λ c, is_upload c = true) (awaited (handle cfg u env g).2) →
  opt_str_truthy (AUDIO_FILE_ID g) = false.
Proof.
  intros Hex. destruct (AUDIO_FILE_ID g) as [fid|] eqn:Hfid; [|done].
  destruct fid as [|c0 fid]; [done|]. exfalso.
  destruct (handle_cached cfg u env g (c0 :: fid) Hfid) as [_ Hall]; [done|].
  apply Exists_exists in Hex as (c & Hin & Hup).
  rewrite Forall_forall in Hall. specialize (Hall c Hin).
  destruct c as [| [|] |]; try done. by specialize (Hall eq_refl).
Qed.

(** An upload the platform answers with a file id stores that id. *)
Lemma upload_sets (cfg : Config) (u : Update) (env : Env) (g : Globals) (fid : str) :
  upload cfg ∈ awaited (handle cfg u env g).2 →
  platform env (upload cfg) = inr {| audio := Some fid |} →
  AUDIO_FILE_ID (after cfg u env g) = Some fid.
Proof.
  intros Hin Hup.
  assert (opt_str_truthy (AUDIO_FILE_ID g) = false) as Hfalsy.
  { apply (upload_only_unset cfg u env). apply Exists_exists. by exists (upload cfg). }
  revert Hin. unfold after, handle, dispatch.
  destruct u as [m|m|m|m].
  - destruct (throttled (time_time env) (from_user_id m) g).1 eqn:Ht.
    { rewrite (on_start_throttled _ _ _ _ Ht). simpl. by intros ?%elem_of_nil. }
    destruct (platform env (answer WELCOME_TEXT true)) as [e|welcome] eqn:Hw.
    { rewrite (on_start_admitted _ _ _ _ Ht), Hw. simpl.
      intros Hin%list_elem_of_singleton. discriminate Hin. }
    rewrite (on_start_upload _ _ _ _ _ Ht Hw Hfalsy), Hup. done.
  - rewrite on_help_eq. simpl. intros Hin%list_elem_of_singleton. discriminate Hin.
  - rewrite on_stats_eq. simpl. intros Hin%list_elem_of_singleton.
    unfold stats_reply in Hin. by case_match.
  - destruct (decide (keyword_text m = py "096")) as [Hkw|Hkw].
    2:{ rewrite (on_keyword_other _ _ _ _ Hkw). simpl. by intros ?%elem_of_nil. }
    destruct (throttled (time_time env) (from_user_id m) g).1 eqn:Ht.
    { rewrite (on_keyword_throttled _ _ _ _ Hkw Ht). simpl. by intros ?%elem_of_nil. }
    rewrite (on_keyword_admitted _ _ _ _ Hkw Ht).
    rewrite send_audio_upload by (simpl; by rewrite throttled_AUDIO_FILE_ID).
    simpl. fold (upload cfg). by rewrite Hup.
Qed.

Lemma run_cached (cfg : Config) (evs : list (Update * Env)) (g : Globals) (fid : str) :
  AUDIO_FILE_ID g = Some fid → fid ≠ [] →
  AUDIO_FILE_ID (run cfg evs g) = Some fid.
Proof.
  revert g. induction evs as [|[u env] evs IH]; intros g Hfid Hne; simpl; [done|].
  apply IH; [|done]. by apply handle_cached.
Qed.

End Cache.

Section CacheClaims.
Context `{Interpreter}.

(** C2 (as amended). Handlers run one after the other upload the audio file
    only while [AUDIO_FILE_ID] is unset or the empty string; an upload that
    the platform answers with a file id stores that id; and once a
    non-empty id is stored it stays the value of [AUDIO_FILE_ID] through
    every later sequence of updates, during which every audio send uses
    that id and no handler uploads again. *)
Theorem AUDIO_FILE_ID_cached_once (cfg : Config) :
  (∀ u env g,
     Exists (λ c, is_upload c = true) (awaited (handle cfg u env g).2) →
     AUDIO_FILE_ID g = None ∨ AUDIO_FILE_ID g = Some [])
  ∧ (∀ u env g fid,
       upload cfg ∈ awaited (handle cfg u env g).2 →
       platform env (upload cfg) = inr {| audio := Some fid |} →
       AUDIO_FILE_ID (after cfg u env g) = Some fid)
  ∧ (∀ g fid,
       AUDIO_FILE_ID g = Some fid → fid ≠ [] →
       ∀ evs u env,
         AUDIO_FILE_ID (run cfg evs g) = Some fid
         ∧ AUDIO_FILE_ID (after cfg u env (run cfg evs g)) = Some fid
         ∧ Forall (λ c, is_upload c = false
                        ∧ (is_audio c = true →
                           c = answer_audio (by_file_id fid) AUDIO_CAPTION
                                 (main_kb (pre_save_url cfg) (channel_url cfg))))
             (awaited (handle cfg u env (run cfg evs g)).2)).
Proof.
  split; [|split].
  - intros u env g Hex. apply upload_only_unset in Hex.
    destruct (AUDIO_FILE_ID g) as [[|c fid]|]; auto. discriminate Hex.
  - apply upload_sets.
  - intros g fid Hfid Hne evs u env.
    pose proof (run_cached cfg evs g fid Hfid Hne) as Hrun.
    destruct (handle_cached cfg u env _ fid Hrun Hne) as [Hafter Hall].
    repeat split; [done..|].
    eapply Forall_impl; [exact Hall|]. simpl. intros c Hc. split; [|done].
    destruct c as [| [|] |]; try done. by specialize (Hc eq_refl).
Qed.

(** With no file id cached and an upload that the platform does not answer
    with one, a handler leaves [AUDIO_FILE_ID] unset. *)
Lemma failed_upload_keeps_unset (cfg : Config) (u : Update) (env : Env) (g : Globals) :
  AUDIO_FILE_ID g = None →
  upload_fails env cfg = true →
  AUDIO_FILE_ID (after cfg u env g) = None.
Proof.
  intros Hnone Hfail. unfold upload_fails in Hfail.
  assert (opt_str_truthy (AUDIO_FILE_ID g) = false) as Hfalsy by by rewrite Hnone.
  unfold after, handle, dispatch.
  destruct u as [m|m|m|m].
  - destruct (throttled (time_time env) (from_user_id m) g).1 eqn:Ht.
    { by rewrite (on_start_throttled _ _ _ _ Ht). }
    rewrite (on_start_admitted_globals _ _ _ _ Ht).
    destruct (platform env (answer WELCOME_TEXT true)) as [e|welcome] eqn:Hw.
    { simpl. by rewrite throttled_AUDIO_FILE_ID. }
    rewrite send_audio_upload
      by (simpl; by rewrite ?started_AUDIO_FILE_ID, ?throttled_AUDIO_FILE_ID).
    simpl. fold (upload cfg).
    destruct (platform env (upload cfg)) as [e|[[fid|]]]; try done;
      simpl; by rewrite throttled_AUDIO_FILE_ID.
  - by rewrite on_help_eq.
  - by rewrite on_stats_eq.
  - destruct (decide (keyword_text m = py "096")) as [Hkw|Hkw].
    2:{ by rewrite (on_keyword_other _ _ _ _ Hkw). }
    destruct (throttled (time_time env) (from_user_id m) g).1 eqn:Ht.
    { by rewrite (on_keyword_throttled _ _ _ _ Hkw Ht). }
    rewrite (on_keyword_admitted _ _ _ _ Hkw Ht).
    rewrite send_audio_upload by (simpl; by rewrite throttled_AUDIO_FILE_ID).
    simpl. fold (upload cfg).
    destruct (platform env (upload cfg)) as [e|[[fid|]]]; try done;
      simpl; by rewrite throttled_AUDIO_FILE_ID.
Qed.

(** With no file id cached, or an empty one, the only audio send of a
    handler is the upload. *)
Lemma unset_sends_by_upload (cfg : Config) (u : Update) (env : Env) (g : Globals) :
  opt_str_truthy (AUDIO_FILE_ID g) = false →
  Forall (λ c, is_audio c = true → c = upload cfg) (awaited (handle cfg u env g).2).
Proof.
  intros Hfalsy. unfold handle, dispatch.
  destruct u as [m|m|m|m].
  - destruct (throttled (time_time env) (from_user_id m) g).1 eqn:Ht.
    { by rewrite (on_start_throttled _ _ _ _ Ht). }
    destruct (platform env (answer WELCOME_TEXT true)) as [e|welcome] eqn:Hw.
    { rewrite (on_start_admitted _ _ _ _ Ht), Hw. by repeat constructor. }
    rewrite (on_start_upload _ _ _ _ _ Ht Hw Hfalsy).
    assert (∀ e, Forall (λ c, is_audio c = true → c = upload cfg)
                   (awaited (on_start_except cfg e env
                      {| globals := started (time_time env) (from_user_id m) g;
                         awaited := [answer WELCOME_TEXT true; upload cfg] |}).2))
      as Hexcept.
    { intros e.
      destruct (on_start_except_awaited cfg e env
        {| globals := started (time_time env) (from_user_id m) g;
           awaited := [answer WELCOME_TEXT true; upload cfg] |}) as (l & -> & Hl).
      simpl. repeat constructor; try done.
      eapply Forall_impl; [exact Hl|]. simpl. intros c Hc. by rewrite Hc. }
    destruct (platform env (upload cfg)) as [e|[[fid|]]]; [apply Hexcept| |apply Hexcept].
    by repeat constructor.
  - rewrite on_help_eq. by repeat constructor.
  - rewrite on_stats_eq. simpl. repeat constructor.
    unfold stats_reply. by case_match.
  - destruct (decide (keyword_text m = py "096")) as [Hkw|Hkw].
    2:{ by rewrite (on_keyword_other _ _ _ _ Hkw). }
    destruct (throttled (time_time env) (from_user_id m) g).1 eqn:Ht.
    { by rewrite (on_keyword_throttled _ _ _ _ Hkw Ht). }
    rewrite (on_keyword_admitted _ _ _ _ Hkw Ht).
    rewrite send_audio_upload by (simpl; by rewrite throttled_AUDIO_FILE_ID).
    simpl. fold (upload cfg).
    destruct (platform env (upload cfg)) as [e|[[fid|]]]; by repeat constructor.
Qed.

(** C4. When no file id is cached and the upload fails (the send from disk
    raises, or returns no file id), [AUDIO_FILE_ID] is still unset after the
    handler. So whatever audio the next update sends is sent by uploading
    the file again; the next admitted start update does so once its welcome
    text is sent, and the next admitted keyword update does so at once. *)
Theorem upload_failure_retryable (cfg : Config) (u : Update) (env : Env) (g : Globals) :
  AUDIO_FILE_ID g = None →
  upload_fails env cfg = true →
  let g' := after cfg u env g in
  AUDIO_FILE_ID g' = None
  ∧ (∀ u' env',
       Forall (λ c, is_audio c = true → c = upload cfg)
         (awaited (handle cfg u' env' g').2))
  ∧ (∀ m' env' welcome,
       (throttled (time_time env') (from_user_id m') g').1 = false →
       platform env' (answer WELCOME_TEXT true) = inr welcome →
       ∃ rest, awaited (handle cfg (start_command m') env' g').2
               = answer WELCOME_TEXT true :: upload cfg :: rest)
  ∧ (∀ m' env',
       keyword_text m' = py "096" →
       (throttled (time_time env') (from_user_id m') g').1 = false →
       awaited (handle cfg (text_message m') env' g').2 = [upload cfg]).
Proof.
  intros Hnone Hfail g'.
  assert (AUDIO_FILE_ID g' = None) as Hg'
    by by apply failed_upload_keeps_unset.
  assert (opt_str_truthy (AUDIO_FILE_ID g') = false) as Hfalsy by by rewrite Hg'.
  split; [done|]. split; [|split].
  - intros u' env'. by apply unset_sends_by_upload.
  - intros m' env' welcome Ht Hw. unfold handle, dispatch.
    rewrite (on_start_upload _ _ _ _ _ Ht Hw Hfalsy).
    destruct (platform env' (upload cfg)) as [e|[[fid|]]].
    + destruct (on_start_except_awaited cfg e env'
        {| globals := started (time_time env') (from_user_id m') g';
           awaited := [answer WELCOME_TEXT true; upload cfg] |}) as (l & -> & _).
      by exists l.
    + by exists [].
    + destruct (on_start_except_awaited cfg
        (py "'NoneType' object has no attribute 'file_id'") env'
        {| globals := started (time_time env') (from_user_id m') g';
           awaited := [answer WELCOME_TEXT true; upload cfg] |}) as (l & -> & _).
      by exists l.
  - intros m' env' Hkw Ht. unfold handle, dispatch.
    rewrite (on_keyword_admitted _ _ _ _ Hkw Ht).
    rewrite send_audio_upload by (simpl; by rewrite throttled_AUDIO_FILE_ID).
    simpl. fold (upload cfg).
    by destruct (platform env' (upload cfg)) as [e|[[fid|]]].
Qed.

End CacheClaims.

(** A start update at time 10 whose upload returns the file id F1, then a
    keyword update at time 11: the id is kept. *)
Lemma AUDIO_FILE_ID_cached_once_witness :
  AUDIO_FILE_ID
    (run (H := ascii_interpreter) (sample_cfg None)
       [(text_message (message_from 8 "096"), at_time 11 (platform_up (py "F2")))]
       (run (H := ascii_interpreter) (sample_cfg None)
          [(start_command (message_from 7 "/start"), at_time 10 (platform_up (py "F1")))]
          initial))
  = Some (py "F1").
Proof.
  pose proof (AUDIO_FILE_ID_cached_once (H := ascii_interpreter) (sample_cfg None))
    as (_ & _ & Hkeep).
  refine (proj1 (Hkeep _ (py "F1") _ _
            [(text_message (message_from 8 "096"), at_time 11 (platform_up (py "F2")))]
            (help_command (message_from 8 "/help"))
            (at_time 12 (platform_up (py "F2"))))).
  - reflexivity.
  - discriminate.
Defined.

(** As the specification first states it, the property fails on an empty
    file id: an upload that returns the empty string sets [AUDIO_FILE_ID]
    to it, and the next keyword update uploads again and replaces it. *)
Lemma AUDIO_FILE_ID_empty_uploaded_again :
  AUDIO_FILE_ID (after_empty_upload) = Some (py "")
  ∧ awaited (handle (H := ascii_interpreter) (sample_cfg None)
               (text_message (message_from 8 "096"))
               (at_time 11 (platform_up (py "F2"))) after_empty_upload).2
    = [upload (sample_cfg None)]
  ∧ AUDIO_FILE_ID (after (H := ascii_interpreter) (sample_cfg None)
                     (text_message (message_from 8 "096"))
                     (at_time 11 (platform_up (py "F2"))) after_empty_upload)
    = Some (py "F2").
Proof. vm_compute. repeat split. Qed.

(** A start update whose upload raises, then a keyword update by another
    user: the file is uploaded again. *)
Lemma upload_failure_retryable_witness :
  awaited
    (handle (H := ascii_interpreter) (sample_cfg None)
       (text_message (message_from 8 "096"))
       (at_time 11 (platform_up (py "F2")))
       (after (H := ascii_interpreter) (sample_cfg None)
          (start_command (message_from 7 "/start"))
          (at_time 10 platform_audio_down) initial)).2
  = [upload (sample_cfg None)].
Proof.
  refine (proj2 (proj2 (proj2 (upload_failure_retryable (H := ascii_interpreter)
            (sample_cfg None) (start_command (message_from 7 "/start"))
            (at_time 10 platform_audio_down) initial _ _)))
            (message_from 8 "096") (at_time 11 (platform_up (py "F2"))) _ _);
    reflexivity.
Defined.

(** ** Failures of the audio send *)

(** In [on_start] a failure of the audio send is handed to the except
    clause: the handler ends as that clause ends. *)
Lemma on_start_audio_failure (m : Message) (cfg : Config) (env : Env) (g : Globals)
    (welcome : Sent) (e : exn) :
  (throttled (time_time env) (from_user_id m) g).1 = false →
  platform env (answer WELCOME_TEXT true) = inr welcome →
  let w2 := (send_audio cfg (main_kb (pre_save_url cfg) (channel_url cfg)) env
               {| globals := started (time_time env) (from_user_id m) g;
                  awaited := [answer WELCOME_TEXT true] |}) in
  w2.1 = Raise e →
  exec (on_start m cfg) env g = on_start_except cfg e env w2.2.
Proof.
  intros Ht Hw w2 He. rewrite (on_start_admitted _ _ _ _ Ht), Hw. simpl.
  fold w2. destruct w2 as [[a|e'] w]; simpl in *; by simplify_eq.
Qed.




(** On the start path a failure [e] of the audio send is caught: once the
    retry message is sent, the handler sends the administrator, if one other
    than 0 is configured, the text carrying [e], and returns unless that
    last send raises. *)
Lemma on_start_audio_failure_caught (m : Message) (cfg : Config) (env : Env)
    (g : Globals) (welcome retry : Sent) (e : exn) :
  (throttled (time_time env) (from_user_id m) g).1 = false →
  platform env (answer WELCOME_TEXT true) = inr welcome →
  let w2 := (send_audio cfg (main_kb (pre_save_url cfg) (channel_url cfg)) env
               {| globals := started (time_time env) (from_user_id m) g;
                  awaited := [answer WELCOME_TEXT true] |}) in
  w2.1 = Raise e →
  platform env (answer RETRY_TEXT false) = inr retry →
  exec (on_start m cfg) env g
  = if opt_int_truthy (admin_id cfg) then
      let c := send_message (default 0 (admin_id cfg)) (py "Ошибка аудио: " ++ e) in
      (match platform env c with inl e2 => Raise e2 | inr _ => Return () end,
       {| globals := globals w2.2;
          awaited := awaited w2.2 ++ [answer RETRY_TEXT false; c] |})
    else
      (Return (), {| globals := globals w2.2;
                     awaited := awaited w2.2 ++ [answer RETRY_TEXT false] |}).
Proof.
  intros Ht Hw w2 He Hr.
  rewrite (on_start_audio_failure _ _ _ _ _ _ Ht Hw He), on_start_except_eq.
  fold w2. cbv zeta. rewrite Hr.
  destruct (opt_int_truthy (admin_id cfg)); [|done].
  cbn [awaited]. by rewrite <- app_assoc.
Qed.

Section KeywordFailure.
Context `{Interpreter}.

(** On the keyword path nothing catches it: the exception leaves the
    handler, which has awaited the audio send and nothing else. *)
Lemma on_keyword_audio_failure (m : Message) (cfg : Config) (env : Env)
    (g : Globals) (e : exn) :
  keyword_text m = py "096" →
  (throttled (time_time env) (from_user_id m) g).1 = false →
  (send_audio cfg (main_kb (pre_save_url cfg) (channel_url cfg)) env
     {| globals := (throttled (time_time env) (from_user_id m) g).2;
        awaited := [] |}).1 = Raise e →
  (handle cfg (text_message m) env g).1 = Raise e
  ∧ ∃ a, awaited (handle cfg (text_message m) env g).2
         = [answer_audio a AUDIO_CAPTION
              (main_kb (pre_save_url cfg) (channel_url cfg))].
Proof.
  intros Hkw Ht He. unfold handle, dispatch.
  rewrite (on_keyword_admitted _ _ _ _ Hkw Ht). split; [done|].
  destruct (send_audio_effect cfg (main_kb (pre_save_url cfg) (channel_url cfg)) env
              {| globals := (throttled (time_time env) (from_user_id m) g).2;
                 awaited := [] |}) as (a & -> & _).
  by exists a.
Qed.

End KeywordFailure.

(** C3, at an input where the handler does not do what the specification
    says. User 7 sends the keyword at time 10, no file id is cached,
    administrator 1 is configured and the upload raises: the exception
    leaves [on_keyword], and neither a retry message nor a message to the
    administrator is sent. *)
Theorem on_keyword_audio_failure_escapes :
  handle (H := ascii_interpreter) (sample_cfg (Some 1))
    (text_message (message_from 7 "096")) (at_time 10 platform_audio_down) initial
  = (Raise (py "Bad Gateway"),
     {| globals := (throttled 10 7 initial).2;
        awaited := [upload (sample_cfg (Some 1))] |}).
Proof. vm_compute. reflexivity. Qed.

(** The same failure on the start path is caught and reported. *)
Example on_start_audio_failure_reported :
  exec (on_start (message_from 7 "/start") (sample_cfg (Some 1)))
    (at_time 10 platform_audio_down) initial
  = (Return (),
     {| globals := started 10 7 initial;
        awaited := [answer WELCOME_TEXT true;
                    upload (sample_cfg (Some 1));
                    answer RETRY_TEXT false;
                    send_message 1 (py "Ошибка аудио: Bad Gateway")] |}).
Proof. vm_compute. reflexivity. Qed.

(** ** The throttle across a handler *)

(** A user whose recorded time is [t1] is rejected at [t2] while [t2 - t1]
    is below the window. *)
Lemma rejected_within_window (u : Z) (t1 t2 : float) (g : Globals) :
  LAST_ACTION_AT g !! u = Some t1 →
  (t2 - t1 <? THROTTLE_SECONDS)%float = true →
  throttled t2 u g = (true, g).
Proof. intros Hlast Hlt. unfold throttled. rewrite Hlast. simpl. by rewrite Hlt. Qed.

Section ThrottleKept.
Context `{Interpreter}.

(** The timestamps after an admitted start or keyword update, whatever the
    platform answers. *)
Lemma admitted_LAST_ACTION_AT (cfg : Config) (m : Message) (u : Update)
    (env : Env) (g : Globals) :
  u = start_command m ∨ (u = text_message m ∧ keyword_text m = py "096") →
  (throttled (time_time env) (from_user_id m) g).1 = false →
  LAST_ACTION_AT (after cfg u env g)
  = <[from_user_id m := time_time env]> (LAST_ACTION_AT g).
Proof.
  intros [->|[-> Hkw]] Ht; unfold after, handle, dispatch.
  - rewrite (on_start_admitted_globals _ _ _ _ Ht).
    destruct (platform env (answer WELCOME_TEXT true)).
    + by apply started_LAST_ACTION_AT.
    + destruct (send_audio_effect cfg (main_kb (pre_save_url cfg) (channel_url cfg)) env
                  {| globals := started (time_time env) (from_user_id m) g;
                     awaited := [answer WELCOME_TEXT true] |}) as (a & _ & _ & ->).
      by apply started_LAST_ACTION_AT.
  - rewrite (on_keyword_admitted _ _ _ _ Hkw Ht).
    destruct (send_audio_effect cfg (main_kb (pre_save_url cfg) (channel_url cfg)) env
                {| globals := (throttled (time_time env) (from_user_id m) g).2;
                   awaited := [] |}) as (a & _ & _ & ->).
    simpl. by rewrite (throttled_admitted _ _ _ Ht).
Qed.

(** C10. On the start path and on the keyword path the time of an admitted
    update is recorded before anything is sent: whatever the platform then
    answers, every send raising included, the state the handler leaves has
    that time as the user's last action, and the user is rejected at any
    time less than five seconds later. *)
Theorem throttle_kept_on_failure (cfg : Config) (m : Message) (u : Update)
    (env : Env) (g : Globals) :
  u = start_command m ∨ (u = text_message m ∧ keyword_text m = py "096") →
  (throttled (time_time env) (from_user_id m) g).1 = false →
  LAST_ACTION_AT (after cfg u env g)
  = <[from_user_id m := time_time env]> (LAST_ACTION_AT g)
  ∧ ∀ t2, (t2 - time_time env <? 5)%float = true →
          throttled t2 (from_user_id m) (after cfg u env g)
          = (true, after cfg u env g).
Proof.
  intros Hu Ht.
  pose proof (admitted_LAST_ACTION_AT cfg m u env g Hu Ht) as Hlast.
  split; [done|]. intros t2 Hlt.
  apply (rejected_within_window _ (time_time env)); [|done].
  rewrite Hlast. apply lookup_insert_eq.
Qed.

(** C5. The keyword handler sends audio only for a text that, stripped and
    lowered, is 096, and then does so if the throttle admits the sender;
    for any other text it returns having awaited nothing and changed
    nothing. The texts 096 and 096 between spaces pass the test, 0960 and
    96 do not. *)
Theorem on_keyword_trigger (cfg : Config) (m : Message) (env : Env) (g : Globals) :
  (keyword_text m ≠ py "096" →
   handle cfg (text_message m) env g = (Return (), {| globals := g; awaited := [] |}))
  ∧ (keyword_text m = py "096" →
     (throttled (time_time env) (from_user_id m) g).1 = false →
     ∃ a, awaited (handle cfg (text_message m) env g).2
          = [answer_audio a AUDIO_CAPTION
               (main_kb (pre_save_url cfg) (channel_url cfg))])
  ∧ (awaited (handle cfg (text_message m) env g).2 ≠ [] →
     keyword_text m = py "096")
  ∧ keyword_text (message_from 1 "096") = py "096"
  ∧ keyword_text (message_from 1 " 096 ") = py "096"
  ∧ keyword_text (message_from 1 "0960") ≠ py "096"
  ∧ keyword_text (message_from 1 "96") ≠ py "096".
Proof.
  split; [|split; [|split]].
  - intros Hne. by apply on_keyword_other.
  - intros Hkw Ht. unfold handle, dispatch.
    rewrite (on_keyword_admitted _ _ _ _ Hkw Ht).
    destruct (send_audio_effect cfg (main_kb (pre_save_url cfg) (channel_url cfg)) env
                {| globals := (throttled (time_time env) (from_user_id m) g).2;
                   awaited := [] |}) as (a & -> & _).
    by exists a.
  - intros Hsent. destruct (decide (keyword_text m = py "096")) as [|Hne]; [done|].
    unfold handle, dispatch in Hsent.
    by rewrite (on_keyword_other _ _ _ _ Hne) in Hsent.
  - repeat split; try reflexivity; discriminate.
Qed.

End ThrottleKept.

Lemma throttle_kept_on_failure_witness :
  throttled 12 7
    (after (H := ascii_interpreter) (sample_cfg None)
       (text_message (message_from 7 "096")) (at_time 10 platform_audio_down) initial)
  = (true,
     after (H := ascii_interpreter) (sample_cfg None)
       (text_message (message_from 7 "096")) (at_time 10 platform_audio_down) initial).
Proof.
  refine (proj2 (throttle_kept_on_failure (H := ascii_interpreter) (sample_cfg None)
            (message_from 7 "096") (text_message (message_from 7 "096"))
            (at_time 10 platform_audio_down) initial _ _) 12%float _).
  - right. split; reflexivity.
  - reflexivity.
  - reflexivity.
Defined.

Lemma on_keyword_trigger_witness :
  handle (H := ascii_interpreter) (sample_cfg None)
    (text_message (message_from 7 "0960")) (at_time 10 (platform_up (py "F1"))) initial
  = (Return (), {| globals := initial; awaited := [] |}).
Proof.
  refine (proj1 (on_keyword_trigger (H := ascii_interpreter) (sample_cfg None)
            (message_from 7 "0960") (at_time 10 (platform_up (py "F1"))) initial) _).
  discriminate.
Defined.

(** ** The stats command *)

(** C6 (as amended). The stats handler changes no state and sends one
    message: the number of users when an administrator other than 0 is
    configured and the sender is that administrator; the denial in every
    other case, that is when no administrator is configured, when the
    configured identifier is 0, or when the sender is someone else. *)
Theorem on_stats_admin_only (m : Message) (cfg : Config) (env : Env) (g : Globals) :
  globals (exec (on_stats m cfg) env g).2 = g
  ∧ (∀ a, admin_id cfg = Some a → a ≠ 0 → from_user_id m = a →
          awaited (exec (on_stats m cfg) env g).2
          = [answer (py "Users: " ++ str_of_nat (size (USERS g))) false])
  ∧ (admin_id cfg = None ∨ admin_id cfg = Some 0
     ∨ admin_id cfg ≠ Some (from_user_id m) →
     awaited (exec (on_stats m cfg) env g).2 = [answer DENIED_TEXT false]).
Proof.
  rewrite on_stats_eq. simpl. unfold stats_reply. split; [done|]. split.
  - intros a -> Hne <-. simpl.
    destruct (Z.eqb_spec (from_user_id m) 0) as [?|_]; [done|].
    simpl. by rewrite bool_decide_eq_true_2.
  - intros [->|[->|Hne]]; simpl; [done..|].
    rewrite (bool_decide_eq_false_2 _ Hne). by rewrite andb_false_r.
Qed.

Lemma on_stats_admin_only_witness :
  awaited (exec (on_stats (message_from 1 "/stats") (sample_cfg (Some 1)))
             (at_time 10 (platform_up (py "F1")))
             (set_USERS {[7; 8; 9]} initial)).2
  = [answer (py "Users: 3") false].
Proof.
  refine (proj1 (proj2 (on_stats_admin_only (message_from 1 "/stats")
            (sample_cfg (Some 1)) (at_time 10 (platform_up (py "F1")))
            (set_USERS {[7; 8; 9]} initial))) 1 _ _ _).
  - reflexivity.
  - discriminate.
  - reflexivity.
Defined.

(** As the specification first states it, the property fails for the
    administrator identifier 0: a sender with that identifier is answered
    with the denial. *)
Lemma on_stats_admin_zero_denied :
  admin_id (sample_cfg (Some 0)) = Some (from_user_id (message_from 0 "/stats"))
  ∧ awaited (exec (on_stats (message_from 0 "/stats") (sample_cfg (Some 0)))
               (at_time 10 (platform_up (py "F1")))
               (set_USERS {[7; 8; 9]} initial)).2
    = [answer DENIED_TEXT false].
Proof. vm_compute. split; reflexivity. Qed.

(** ** Configuration *)

Section Configuration.
Context `{Interpreter} {library : Library}.


End Configuration.



Example load_config_sample :
  load_config (H := ascii_interpreter)
    {[ py "BOT_TOKEN" := py " 1:t "; py "ADMIN_ID" := py " 42 " ]}
  = Return (sample_cfg (Some 42)).
Proof. vm_compute. reflexivity. Qed.


(** * Further properties of the handlers *)

(** ** Sequences of throttle calls *)

Lemma spaced_cons (a b : float) (l : list float) :
  spaced (a :: b :: l) = negb (b - a <? THROTTLE_SECONDS)%float && spaced (b :: l).
Proof. reflexivity. Qed.

Lemma admitted_times_spaced (u : Z) (calls : list (float * Z)) (g : Globals) :
  spaced (default 0%float (LAST_ACTION_AT g !! u) :: admitted_times u calls g) = true.
Proof.
  revert g. induction calls as [|[now v] calls IH]; intros g; [done|].
  cbn [admitted_times].
  destruct (decide (v = u)) as [->|Hne].
  - rewrite bool_decide_eq_true_2 by done. cbn [andb].
    destruct (throttled now u g).1 eqn:Ht; cbn [negb].
    + rewrite (throttled_rejected _ _ _ Ht). apply IH.
    + specialize (IH (throttled now u g).2).
      rewrite (throttled_admitted _ _ _ Ht) in IH |- *.
      cbn [LAST_ACTION_AT set_LAST_ACTION_AT] in IH.
      rewrite lookup_insert_eq in IH.
      change (default 0%float (Some now)) with now in IH.
      rewrite spaced_cons, IH, andb_true_r.
      unfold throttled in Ht. by destruct (_ <? _)%float.
  - rewrite bool_decide_eq_false_2 by done. cbn [andb].
    specialize (IH (throttled now v g).2).
    by rewrite (throttled_other now v u g) in IH.
Qed.

Lemma throttled_calls_last (u : Z) (calls : list (float * Z)) (g : Globals) :
  LAST_ACTION_AT (throttled_calls calls g) !! u
  = match last (admitted_times u calls g) with
    | Some t => Some t
    | None => LAST_ACTION_AT g !! u
    end.
Proof.
  revert g. induction calls as [|[now v] calls IH]; intros g; [done|].
  cbn [admitted_times throttled_calls]. rewrite IH.
  destruct (decide (v = u)) as [->|Hne].
  - rewrite bool_decide_eq_true_2 by done. cbn [andb].
    destruct (throttled now u g).1 eqn:Ht; cbn [negb].
    + by rewrite (throttled_rejected _ _ _ Ht).
    + rewrite (throttled_admitted _ _ _ Ht).
      cbn [LAST_ACTION_AT set_LAST_ACTION_AT]. rewrite lookup_insert_eq.
      destruct (admitted_times u calls _) as [|t ts] eqn:E; [done|].
      rewrite !last_cons. by destruct (last ts).
  - rewrite bool_decide_eq_false_2 by done. cbn [andb].
    by rewrite (throttled_other now v u g).
Qed.

(** X1. Over any sequence of throttle calls, by any users at any clock
    readings: the readings at which a user was admitted are never closer
    to one another than the window, the first of them is not closer than
    the window to the time the user had on record (0 when there was none),
    and the time on record at the end is the last admitted reading (the one
    before the calls when none was admitted). *)
Theorem throttled_calls_spaced (u : Z) (calls : list (float * Z)) (g : Globals) :
  spaced (default 0%float (LAST_ACTION_AT g !! u) :: admitted_times u calls g) = true
  ∧ LAST_ACTION_AT (throttled_calls calls g) !! u
    = match last (admitted_times u calls g) with
      | Some t => Some t
      | None => LAST_ACTION_AT g !! u
      end.
Proof. split; [apply admitted_times_spaced|apply throttled_calls_last]. Qed.

(** ** The timestamps across handlers *)

Section Timestamps.
Context `{Interpreter}.

(** The timestamps after a handler: the time of the update recorded for its
    sender when the update is gated and admitted, nothing changed in every
    other case. *)
Lemma after_LAST_ACTION_AT (cfg : Config) (u : Update) (env : Env) (g : Globals) :
  LAST_ACTION_AT (after cfg u env g)
  = if gated u
       && negb (throttled (time_time env) (from_user_id (update_message u)) g).1
    then <[from_user_id (update_message u) := time_time env]> (LAST_ACTION_AT g)
    else LAST_ACTION_AT g.
Proof.
  destruct u as [m|m|m|m]; cbn [gated update_message andb].
  - destruct (throttled (time_time env) (from_user_id m) g).1 eqn:Ht; cbn [negb].
    + unfold after, handle, dispatch. by rewrite (on_start_throttled _ _ _ _ Ht).
    + apply (admitted_LAST_ACTION_AT cfg m); auto.
  - unfold after, handle, dispatch. by rewrite on_help_eq.
  - unfold after, handle, dispatch. by rewrite on_stats_eq.
  - destruct (decide (keyword_text m = py "096")) as [Hkw|Hkw].
    + rewrite bool_decide_eq_true_2 by done. cbn [andb].
      destruct (throttled (time_time env) (from_user_id m) g).1 eqn:Ht; cbn [negb].
      * unfold after, handle, dispatch.
        by rewrite (on_keyword_throttled _ _ _ _ Hkw Ht).
      * apply (admitted_LAST_ACTION_AT cfg m); auto.
    + rewrite bool_decide_eq_false_2 by done. cbn [andb].
      unfold after, handle, dispatch. by rewrite (on_keyword_other _ _ _ _ Hkw).
Qed.

Lemma run_LAST_ACTION_AT_dom (cfg : Config) (evs : list (Update * Env)) (g : Globals) :
  dom (LAST_ACTION_AT g) ⊆ dom (LAST_ACTION_AT (run cfg evs g))
  ∧ dom (LAST_ACTION_AT (run cfg evs g))
    ⊆ dom (LAST_ACTION_AT g) ∪ list_to_set (gated_senders evs).
Proof.
  revert g. induction evs as [|[u env] evs IH]; intros g; cbn [run gated_senders].
  { split; [done|]. apply union_subseteq_l. }
  destruct (IH (after cfg u env g)) as [IH1 IH2]. clear IH.
  rewrite after_LAST_ACTION_AT in IH1, IH2.
  destruct (gated u); cbn [andb] in IH1, IH2; [|done].
  rewrite list_to_set_cons.
  destruct (negb _).
  - rewrite dom_insert_L in IH1, IH2. split.
    + etrans; [apply union_subseteq_r|exact IH1].
    + etrans; [exact IH2|].
      rewrite (comm_L (∪) {[_]} (dom (LAST_ACTION_AT g))), <- (assoc_L (∪)).
      done.
  - split; [done|]. etrans; [exact IH2|].
    apply union_mono_l, union_subseteq_r.
Qed.

(** X2. A handler changes the timestamps only when its update is gated (a
    start command, or a text that is the keyword) and the throttle admits
    the sender, and then it records the time of the update for that sender
    alone, whatever the platform answers. Over a sequence of updates no
    entry is ever removed, and the users with an entry at the end are those
    who had one at the beginning and senders of gated updates: the help and
    stats commands and other texts never add one. *)
Theorem LAST_ACTION_AT_changes (cfg : Config) :
  (∀ u env g,
     LAST_ACTION_AT (after cfg u env g)
     = if gated u
          && negb (throttled (time_time env) (from_user_id (update_message u)) g).1
       then <[from_user_id (update_message u) := time_time env]> (LAST_ACTION_AT g)
       else LAST_ACTION_AT g)
  ∧ (∀ evs g,
       dom (LAST_ACTION_AT g) ⊆ dom (LAST_ACTION_AT (run cfg evs g))
       ∧ dom (LAST_ACTION_AT (run cfg evs g))
         ⊆ dom (LAST_ACTION_AT g) ∪ list_to_set (gated_senders evs)).
Proof. split; [apply after_LAST_ACTION_AT|apply run_LAST_ACTION_AT_dom]. Qed.

(** X3. The start path and the keyword path share one throttle: within
    five seconds of an admitted start command or keyword of a user, a text
    of that user, keyword or not, is handled without any call and without
    any change of state, and a start command of that user without any call
    and with no change but the sender being put in [USERS]. *)
Theorem rejected_update_is_silent (cfg : Config) (m m' : Message) (u : Update)
    (env env' : Env) (g : Globals) :
  u = start_command m ∨ (u = text_message m ∧ keyword_text m = py "096") →
  (throttled (time_time env) (from_user_id m) g).1 = false →
  from_user_id m' = from_user_id m →
  (time_time env' - time_time env <? 5)%float = true →
  let g1 := after cfg u env g in
  handle cfg (text_message m') env' g1 = (Return (), {| globals := g1; awaited := [] |})
  ∧ handle cfg (start_command m') env' g1
    = (Return (), {| globals := set_USERS ({[from_user_id m']} ∪ USERS g1) g1;
                     awaited := [] |}).
Proof.
  intros Hu Ht Hsame Hlt g1.
  assert (throttled (time_time env') (from_user_id m') g1 = (true, g1)) as Hrej.
  { apply (rejected_within_window _ (time_time env)); [|done].
    unfold g1. rewrite (admitted_LAST_ACTION_AT cfg m u env g Hu Ht), Hsame.
    apply lookup_insert_eq. }
  split; unfold handle, dispatch.
  - destruct (decide (keyword_text m' = py "096")) as [Hkw|Hkw].
    + apply on_keyword_throttled; [done|]. by rewrite Hrej.
    + by apply on_keyword_other.
  - apply on_start_throttled. by rewrite Hrej.
Qed.

Lemma query_after (cfg : Config) (u : Update) (env : Env) (g : Globals) :
  is_query u = true → after cfg u env g = g.
Proof.
  destruct u as [m|m|m|m]; try done; intros _; unfold after, handle, dispatch.
  - by rewrite on_help_eq.
  - by rewrite on_stats_eq.
Qed.

(** X4. The help and stats commands are answered whatever the throttle
    holds for the sender, by exactly one text message, and change nothing:
    a sequence made of help and stats commands only leaves the whole state,
    timestamps included, as it was. *)
Theorem queries_change_nothing (cfg : Config) :
  (∀ u env g, is_query u = true →
     after cfg u env g = g
     ∧ ∃ t, awaited (handle cfg u env g).2 = [answer t false])
  ∧ (∀ evs g, forallb (λ ev, is_query ev.1) evs = true → run cfg evs g = g).
Proof.
  split.
  - intros u env g Hq. split; [by apply query_after|].
    destruct u as [m|m|m|m]; try done; unfold handle, dispatch.
    + rewrite on_help_eq. by eexists.
    + rewrite on_stats_eq. unfold stats_reply. simpl. case_match; by eexists.
  - intros evs. induction evs as [|[u env] evs IH]; intros g; [done|].
    cbn [forallb run fst]. intros [Hq Hevs]%andb_true_iff.
    rewrite (query_after _ _ _ _ Hq). by apply IH.
Qed.

End Timestamps.

Lemma rejected_update_is_silent_witness :
  handle (H := ascii_interpreter) (sample_cfg None)
    (text_message (message_from 7 "096")) (at_time 12 (platform_up (py "F1")))
    (after (H := ascii_interpreter) (sample_cfg None)
       (start_command (message_from 7 "/start")) (at_time 10 (platform_up (py "F1")))
       initial)
  = (Return (),
     {| globals := after (H := ascii_interpreter) (sample_cfg None)
                     (start_command (message_from 7 "/start"))
                     (at_time 10 (platform_up (py "F1"))) initial;
        awaited := [] |}).
Proof.
  refine (proj1 (rejected_update_is_silent (H := ascii_interpreter) (sample_cfg None)
            (message_from 7 "/start") (message_from 7 "096")
            (start_command (message_from 7 "/start"))
            (at_time 10 (platform_up (py "F1"))) (at_time 12 (platform_up (py "F1")))
            initial _ _ _ _)).
  - by left.
  - reflexivity.
  - reflexivity.
  - reflexivity.
Defined.

Lemma queries_change_nothing_witness :
  run (H := ascii_interpreter) (sample_cfg (Some 1))
    [(help_command (message_from 7 "/help"), at_time 10 platform_audio_down);
     (stats_command (message_from 1 "/stats"), at_time 10 platform_admin_down)]
    after_empty_upload
  = after_empty_upload.
Proof.
  refine (proj2 (queries_change_nothing (H := ascii_interpreter) (sample_cfg (Some 1)))
            _ _ _).
  reflexivity.
Defined.

(** ** The calls a handler awaits *)

(** Goes through a list of calls, each either no audio send or one of the
    expected shape. *)
Ltac audio_calls :=
  repeat (apply List.Forall_cons;
          [cbn [is_audio];
           first [by intros [=] | intros _; eexists; reflexivity]|]);
  apply List.Forall_nil.

(** Splits the membership of a call in an explicit list of calls, and
    drops the elements that are calls of another kind. *)
Ltac call_in H :=
  apply list_elem_of_In in H; cbn [In] in H;
  repeat (destruct H as [H|H]; [try discriminate H|]); try contradiction.

(** Every way [on_start] can go: rejected by the throttle; stopped by the
    welcome text; audio sent; audio failed and then the retry text failed,
    or went through with no administrator to tell, or with one. *)
Lemma on_start_cases (m : Message) (cfg : Config) (env : Env) (g : Globals) :
  let r := exec (on_start m cfg) env g in
  let W := answer WELCOME_TEXT true in
  let R := answer RETRY_TEXT false in
  let A a := answer_audio a AUDIO_CAPTION (main_kb (pre_save_url cfg) (channel_url cfg)) in
  (r.1 = Return () ∧ awaited r.2 = [])
  ∨ (∃ e, platform env W = inl e ∧ r.1 = Raise e ∧ awaited r.2 = [W])
  ∨ (∃ a, r.1 = Return () ∧ awaited r.2 = [W; A a])
  ∨ (∃ a e1, platform env R = inl e1 ∧ r.1 = Raise e1 ∧ awaited r.2 = [W; A a; R])
  ∨ (∃ a, opt_int_truthy (admin_id cfg) = false
          ∧ r.1 = Return () ∧ awaited r.2 = [W; A a; R])
  ∨ (∃ a e n, admin_id cfg = Some n ∧ n ≠ 0
              ∧ awaited r.2 = [W; A a; R; send_message n (py "Ошибка аудио: " ++ e)]
              ∧ r.1 = match platform env (send_message n (py "Ошибка аудио: " ++ e)) with
                      | inl e2 => Raise e2
                      | inr _ => Return ()
                      end).
Proof.
  intros r W R A. subst r.
  destruct (throttled (time_time env) (from_user_id m) g).1 eqn:Ht.
  { left. by rewrite (on_start_throttled _ _ _ _ Ht). }
  right. rewrite (on_start_admitted _ _ _ _ Ht). cbv zeta. fold W.
  destruct (platform env W) as [e|welcome] eqn:Hw.
  { left. by exists e. }
  right.
  destruct (send_audio_effect cfg (main_kb (pre_save_url cfg) (channel_url cfg)) env
              {| globals := started (time_time env) (from_user_id m) g;
                 awaited := [W] |}) as (a & Haw & _).
  destruct (send_audio _ _ _ _) as [[[]|e] w2]; cbn [snd awaited] in Haw.
  { left. by exists a. }
  right. rewrite on_start_except_eq. cbv zeta. fold R. rewrite Haw.
  destruct (platform env R) as [e1|retry] eqn:Hr.
  { left. by exists a, e1. }
  right.
  destruct (admin_id cfg) as [n|] eqn:Hadm; cbn [opt_int_truthy].
  - destruct (Z.eqb_spec n 0) as [->|Hn]; cbn [negb].
    + left. by exists a.
    + right. exists a, e, n. cbn [default awaited snd fst]. split_and!; try done.
  - left. by exists a.
Qed.

Section Calls.
Context `{Interpreter}.

(** Every way [on_keyword] can go: nothing awaited, or the audio send
    alone. *)
Lemma on_keyword_cases (m : Message) (cfg : Config) (env : Env) (g : Globals) :
  let r := exec (on_keyword m cfg) env g in
  (r.1 = Return () ∧ awaited r.2 = [])
  ∨ (∃ a, awaited r.2
          = [answer_audio a AUDIO_CAPTION (main_kb (pre_save_url cfg) (channel_url cfg))]).
Proof.
  intros r. subst r.
  destruct (decide (keyword_text m = py "096")) as [Hkw|Hkw].
  2:{ left. by rewrite (on_keyword_other _ _ _ _ Hkw). }
  destruct (throttled (time_time env) (from_user_id m) g).1 eqn:Ht.
  { left. by rewrite (on_keyword_throttled _ _ _ _ Hkw Ht). }
  right. rewrite (on_keyword_admitted _ _ _ _ Hkw Ht).
  destruct (send_audio_effect cfg (main_kb (pre_save_url cfg) (channel_url cfg)) env
              {| globals := (throttled (time_time env) (from_user_id m) g).2;
                 awaited := [] |}) as (a & -> & _).
  by exists a.
Qed.

(** X5. When the welcome text of an admitted start command cannot be sent,
    the exception leaves [on_start] and nothing else is awaited, no audio
    and no retry message; the sender has all the same been put in [USERS]
    and the time of the update recorded as the sender's last action. *)
Theorem on_start_welcome_failure (m : Message) (cfg : Config) (env : Env)
    (g : Globals) (e : exn) :
  (throttled (time_time env) (from_user_id m) g).1 = false →
  platform env (answer WELCOME_TEXT true) = inl e →
  (handle cfg (start_command m) env g).1 = Raise e
  ∧ awaited (handle cfg (start_command m) env g).2 = [answer WELCOME_TEXT true]
  ∧ from_user_id m ∈ USERS (after cfg (start_command m) env g)
  ∧ LAST_ACTION_AT (after cfg (start_command m) env g) !! from_user_id m
    = Some (time_time env)
  ∧ AUDIO_FILE_ID (after cfg (start_command m) env g) = AUDIO_FILE_ID g.
Proof.
  intros Ht Hw. unfold after, handle, dispatch.
  rewrite (on_start_admitted _ _ _ _ Ht), Hw. cbv zeta. cbn [fst snd awaited globals].
  split_and!; try done.
  - unfold started. cbn [USERS set_USERS]. apply elem_of_union_l.
    by apply elem_of_singleton.
  - rewrite (started_LAST_ACTION_AT _ _ _ Ht). apply lookup_insert_eq.
  - apply started_AUDIO_FILE_ID.
Qed.

(** X6. A handler that raises stops at the call it awaited last. On the
    start path, and for the help and stats commands, that call is a text
    message and the exception is the one the platform raised for it: a
    failure of the audio send never leaves [on_start]. On the keyword path
    that call is the audio send. *)
Theorem raising_handler_last_call (cfg : Config) (u : Update) (env : Env)
    (g : Globals) (e : exn) :
  (handle cfg u env g).1 = Raise e →
  ∃ c, last (awaited (handle cfg u env g).2) = Some c
     ∧ is_audio c = match u with text_message _ => true | _ => false end
     ∧ (is_audio c = false → platform env c = inl e).
Proof.
  unfold handle, dispatch. destruct u as [m|m|m|m].
  - destruct (on_start_cases m cfg env g)
      as [[Hr _]|[(e0 & Hp & Hr & Ha)|[(a & Hr & _)|[(a & e1 & Hp & Hr & Ha)
         |[(a & _ & Hr & _)|(a & e0 & n & _ & _ & Ha & Hr)]]]]];
      cbv zeta in *; rewrite Hr; try done.
    + intros [= <-]. eexists. rewrite Ha. by split_and!.
    + intros [= <-]. eexists. rewrite Ha. by split_and!.
    + destruct (platform env (send_message _ _)) as [e2|] eqn:Hp; [|done].
      intros [= <-]. eexists. rewrite Ha. by split_and!.
  - rewrite on_help_eq. cbn [fst snd awaited].
    destruct (platform env _) as [e0|] eqn:Hp; [|done].
    intros [= <-]. eexists. by split_and!.
  - rewrite on_stats_eq. cbn [fst snd awaited].
    destruct (platform env _) as [e0|] eqn:Hp; [|done].
    intros [= <-]. exists (stats_reply cfg m g). split_and!; try done.
    unfold stats_reply. by case_match.
  - destruct (on_keyword_cases m cfg env g) as [[Hr _]|(a & Ha)];
      cbv zeta in *; [by rewrite Hr|].
    intros _. eexists. rewrite Ha. by split_and!.
Qed.

(** X7. A handler sends audio at most once, and whenever it does, with the
    fixed caption and the keyboard of the two configured links. *)
Theorem one_audio_send (cfg : Config) (u : Update) (env : Env) (g : Globals) :
  (audio_sends (awaited (handle cfg u env g).2) ≤ 1)%nat
  ∧ Forall (λ c, is_audio c = true →
                 ∃ a, c = answer_audio a AUDIO_CAPTION
                            (main_kb (pre_save_url cfg) (channel_url cfg)))
      (awaited (handle cfg u env g).2).
Proof.
  unfold handle, dispatch, audio_sends. destruct u as [m|m|m|m].
  - destruct (on_start_cases m cfg env g)
      as [[_ Ha]|[(e0 & _ & _ & Ha)|[(a & _ & Ha)|[(a & e1 & _ & _ & Ha)
         |[(a & _ & _ & Ha)|(a & e0 & n & _ & _ & Ha & _)]]]]];
      cbv zeta in *; rewrite Ha; cbn [List.filter is_audio length];
      (split; [lia|]); audio_calls.
  - rewrite on_help_eq. cbn [snd awaited List.filter is_audio length].
    split; [lia|]. audio_calls.
  - rewrite on_stats_eq. cbn [snd awaited]. unfold stats_reply.
    destruct (opt_int_truthy _ && _); cbn [List.filter is_audio length];
      (split; [lia|]); audio_calls.
  - destruct (on_keyword_cases m cfg env g) as [[_ Ha]|(a & Ha)];
      cbv zeta in *; rewrite Ha; cbn [List.filter is_audio length];
      (split; [lia|]); audio_calls.
Qed.

(** X8. A message outside the chat of the update is sent only by the start
    handler, only to the configured administrator, whose identifier is not
    0, and only as the fourth and last call, after the welcome text, the
    audio send and the retry message; the audio send of that handler has
    then failed, and the text of the message is the fixed prefix followed
    by the text of the exception with which it failed. *)
Theorem admin_message_only_after_failure (cfg : Config) (u : Update) (env : Env)
    (g : Globals) (n : Z) (t : str) :
  send_message n t ∈ awaited (handle cfg u env g).2 →
  admin_id cfg = Some n ∧ n ≠ 0
  ∧ ∃ m a e,
      u = start_command m
      ∧ (send_audio cfg (main_kb (pre_save_url cfg) (channel_url cfg)) env
           {| globals := started (time_time env) (from_user_id m) g;
              awaited := [answer WELCOME_TEXT true] |}).1 = Raise e
      ∧ t = py "Ошибка аудио: " ++ e
      ∧ awaited (handle cfg u env g).2
        = [answer WELCOME_TEXT true;
           answer_audio a AUDIO_CAPTION (main_kb (pre_save_url cfg) (channel_url cfg));
           answer RETRY_TEXT false;
           send_message n t].
Proof.
  unfold handle, dispatch. destruct u as [m|m|m|m].
  - destruct (throttled (time_time env) (from_user_id m) g).1 eqn:Ht.
    { rewrite (on_start_throttled _ _ _ _ Ht). by intros ?%elem_of_nil. }
    rewrite (on_start_admitted _ _ _ _ Ht). cbv zeta.
    destruct (platform env (answer WELCOME_TEXT true)) as [e0|welcome] eqn:Hw.
    { intros Hin. call_in Hin. }
    destruct (send_audio_effect cfg (main_kb (pre_save_url cfg) (channel_url cfg)) env
                {| globals := started (time_time env) (from_user_id m) g;
                   awaited := [answer WELCOME_TEXT true] |}) as (a & Haw & _).
    destruct (send_audio _ _ _ _) as [[[]|e] w2] eqn:Hsend; cbn [snd awaited] in Haw.
    { cbn [snd]. rewrite Haw. intros Hin. call_in Hin. }
    rewrite on_start_except_eq. cbv zeta. rewrite Haw.
    destruct (platform env (answer RETRY_TEXT false)) as [e1|retry].
    { intros Hin. call_in Hin. }
    destruct (admin_id cfg) as [n0|] eqn:Hadm; cbn [opt_int_truthy].
    2:{ intros Hin. call_in Hin. }
    change (default 0 (Some n0)) with n0.
    destruct (Z.eqb_spec n0 0) as [->|Hn0]; cbn [negb].
    { intros Hin. call_in Hin. }
    intros Hin. call_in Hin.
    injection Hin as <- <-. split_and!; [done..|].
    exists m, a, e. split_and!; [done|by rewrite Hsend|done|reflexivity].
  - rewrite on_help_eq. cbn [snd awaited]. intros Hin. call_in Hin.
  - rewrite on_stats_eq. cbn [snd awaited]. unfold stats_reply.
    destruct (opt_int_truthy _ && _); intros Hin; call_in Hin.
  - destruct (on_keyword_cases m cfg env g) as [[_ Ha]|(a & Ha)];
      cbv zeta in Ha; rewrite Ha; intros Hin; call_in Hin.
Qed.

End Calls.

Lemma on_start_welcome_failure_witness :
  (handle (H := ascii_interpreter) (sample_cfg None)
     (start_command (message_from 7 "/start"))
     (at_time 10 (λ _, inl (py "Bad Gateway"))) initial).1
  = Raise (py "Bad Gateway").
Proof.
  refine (proj1 (on_start_welcome_failure (H := ascii_interpreter)
            (message_from 7 "/start") (sample_cfg None) (at_time 10 (λ _, inl (py "Bad Gateway")))
            initial (py "Bad Gateway") _ _)); reflexivity.
Defined.

Lemma raising_handler_last_call_witness :
  ∃ c, last (awaited (handle (H := ascii_interpreter) (sample_cfg (Some 1))
                        (start_command (message_from 7 "/start"))
                        (at_time 10 platform_admin_down) initial).2) = Some c
     ∧ is_audio c = false
     ∧ (is_audio c = false →
        platform (at_time 10 platform_admin_down) c = inl (py "Forbidden")).
Proof.
  refine (raising_handler_last_call (H := ascii_interpreter) (sample_cfg (Some 1))
            (start_command (message_from 7 "/start"))
            (at_time 10 platform_admin_down) initial (py "Forbidden") _).
  reflexivity.
Defined.

Lemma admin_message_only_after_failure_witness :
  admin_id (sample_cfg (Some 1)) = Some 1 ∧ 1 ≠ 0
  ∧ ∃ m a e,
      start_command (message_from 7 "/start") = start_command m
      ∧ (send_audio (sample_cfg (Some 1))
           (main_kb (pre_save_url (sample_cfg (Some 1)))
              (channel_url (sample_cfg (Some 1))))
           (at_time 10 platform_audio_down)
           {| globals := started (time_time (at_time 10 platform_audio_down))
                           (from_user_id m) initial;
              awaited := [answer WELCOME_TEXT true] |}).1 = Raise e
      ∧ py "Ошибка аудио: Bad Gateway" = py "Ошибка аудио: " ++ e
      ∧ awaited (handle (H := ascii_interpreter) (sample_cfg (Some 1))
                   (start_command (message_from 7 "/start"))
                   (at_time 10 platform_audio_down) initial).2
        = [answer WELCOME_TEXT true;
           answer_audio a AUDIO_CAPTION
             (main_kb (pre_save_url (sample_cfg (Some 1)))
                (channel_url (sample_cfg (Some 1))));
           answer RETRY_TEXT false;
           send_message 1 (py "Ошибка аудио: Bad Gateway")].
Proof.
  refine (admin_message_only_after_failure (H := ascii_interpreter)
            (sample_cfg (Some 1)) (start_command (message_from 7 "/start"))
            (at_time 10 platform_audio_down) initial 1
            (py "Ошибка аудио: Bad Gateway") _).
  vm_compute. do 3 right. left.
Defined.

(** ** The file id and the users over sequences *)

Section Sequences.
Context `{Interpreter}.

(** The file id after a handler: as before, or the one a successful upload
    returned. *)
Lemma after_AUDIO_FILE_ID (cfg : Config) (u : Update) (env : Env) (g : Globals) :
  AUDIO_FILE_ID (after cfg u env g) = AUDIO_FILE_ID g
  ∨ ∃ fid, opt_str_truthy (AUDIO_FILE_ID g) = false
         ∧ upload cfg ∈ awaited (handle cfg u env g).2
         ∧ platform env (upload cfg) = inr {| audio := Some fid |}
         ∧ AUDIO_FILE_ID (after cfg u env g) = Some fid.
Proof.
  destruct (opt_str_truthy (AUDIO_FILE_ID g)) eqn:Hfalsy.
  { left. destruct (AUDIO_FILE_ID g) as [[|c fid]|] eqn:Hfid; try done.
    by destruct (handle_cached cfg u env g (c :: fid) Hfid) as [-> _]. }
  unfold after, handle, dispatch. destruct u as [m|m|m|m].
  - destruct (throttled (time_time env) (from_user_id m) g).1 eqn:Ht.
    { left. by rewrite (on_start_throttled _ _ _ _ Ht). }
    destruct (platform env (answer WELCOME_TEXT true)) as [e|welcome] eqn:Hw.
    { left. rewrite (on_start_admitted _ _ _ _ Ht), Hw.
      apply started_AUDIO_FILE_ID. }
    rewrite (on_start_upload _ _ _ _ _ Ht Hw Hfalsy). cbv zeta.
    destruct (platform env (upload cfg)) as [e|[[fid|]]] eqn:Hup.
    + left. rewrite on_start_except_globals. apply started_AUDIO_FILE_ID.
    + right. exists fid. split_and!; try done.
      cbn [snd awaited]. apply elem_of_cons. right. by apply elem_of_cons; left.
    + left. rewrite on_start_except_globals. apply started_AUDIO_FILE_ID.
  - left. by rewrite on_help_eq.
  - left. by rewrite on_stats_eq.
  - destruct (decide (keyword_text m = py "096")) as [Hkw|Hkw].
    2:{ left. by rewrite (on_keyword_other _ _ _ _ Hkw). }
    destruct (throttled (time_time env) (from_user_id m) g).1 eqn:Ht.
    { left. by rewrite (on_keyword_throttled _ _ _ _ Hkw Ht). }
    rewrite (on_keyword_admitted _ _ _ _ Hkw Ht).
    rewrite send_audio_upload
      by (cbn [globals]; by rewrite throttled_AUDIO_FILE_ID).
    cbv zeta. fold (upload cfg).
    destruct (platform env (upload cfg)) as [e|[[fid|]]] eqn:Hup.
    + left. apply throttled_AUDIO_FILE_ID.
    + right. exists fid. split_and!; try done.
      cbn [snd awaited]. by apply elem_of_cons; left.
    + left. apply throttled_AUDIO_FILE_ID.
Qed.

(** X9. [AUDIO_FILE_ID] changes in one way only: a handler that found it
    unset or empty uploaded the file and the platform returned a file id,
    which is the new value. In particular it is never set back to unset,
    by any handler or sequence of updates, and a handler that raises or is
    rejected by the throttle leaves it as it was. *)
Theorem AUDIO_FILE_ID_changes (cfg : Config) :
  (∀ u env g,
     AUDIO_FILE_ID (after cfg u env g) = AUDIO_FILE_ID g
     ∨ ∃ fid, opt_str_truthy (AUDIO_FILE_ID g) = false
            ∧ upload cfg ∈ awaited (handle cfg u env g).2
            ∧ platform env (upload cfg) = inr {| audio := Some fid |}
            ∧ AUDIO_FILE_ID (after cfg u env g) = Some fid)
  ∧ (∀ evs g, is_Some (AUDIO_FILE_ID g) → is_Some (AUDIO_FILE_ID (run cfg evs g))).
Proof.
  split; [apply after_AUDIO_FILE_ID|].
  intros evs. induction evs as [|[u env] evs IH]; intros g Hset; [done|].
  cbn [run]. apply IH.
  destruct (after_AUDIO_FILE_ID cfg u env g) as [->|(fid & _ & _ & _ & ->)]; eauto.
Qed.

Lemma run_USERS (cfg : Config) (evs : list (Update * Env)) (g : Globals) :
  USERS (run cfg evs g) = USERS g ∪ list_to_set (start_senders evs).
Proof.
  revert g. induction evs as [|[u env] evs IH]; intros g; cbn [run start_senders].
  { by rewrite list_to_set_nil, (right_id_L ∅ (∪)). }
  rewrite IH, after_USERS. destruct u as [m|m|m|m]; try done.
  rewrite list_to_set_cons, (comm_L (∪) {[_]} (USERS g)).
  by rewrite (assoc_L (∪)).
Qed.

(** X10. After any sequence of updates, [USERS] is the set it was before
    together with the senders of the start commands of the sequence, and
    of no other update. So, from the initial state, what the stats command
    then sends the administrator is the number of distinct users who sent
    a start command. *)
Theorem USERS_are_start_senders (cfg : Config) (evs : list (Update * Env)) (g : Globals) :
  USERS (run cfg evs g) = USERS g ∪ list_to_set (start_senders evs)
  ∧ (∀ m env n,
       admin_id cfg = Some n → n ≠ 0 → from_user_id m = n →
       awaited (handle cfg (stats_command m) env (run cfg evs initial)).2
       = [answer (py "Users: "
                  ++ str_of_nat (length (remove_dups (start_senders evs)))) false]).
Proof.
  split; [apply run_USERS|].
  intros m env n Hadm Hn Hm. unfold handle, dispatch.
  rewrite on_stats_eq. cbn [snd awaited]. unfold stats_reply.
  rewrite Hadm, Hm. cbn [opt_int_truthy].
  destruct (Z.eqb_spec n 0) as [?|_]; [done|].
  rewrite bool_decide_eq_true_2 by done. cbn [negb andb].
  rewrite run_USERS. cbn [USERS initial]. rewrite (left_id_L ∅ (∪)).
  do 4 f_equal.
  assert (list_to_set (start_senders evs)
          = (list_to_set (remove_dups (start_senders evs)) : gset Z)) as ->.
  { apply set_eq. intros x. by rewrite !elem_of_list_to_set, elem_of_remove_dups. }
  apply size_list_to_set, NoDup_remove_dups.
Qed.

End Sequences.

Lemma AUDIO_FILE_ID_changes_witness :
  is_Some (AUDIO_FILE_ID
             (run (H := ascii_interpreter) (sample_cfg None)
                [(text_message (message_from 8 "096"), at_time 11 platform_audio_down)]
                after_empty_upload)).
Proof.
  refine (proj2 (AUDIO_FILE_ID_changes (H := ascii_interpreter) (sample_cfg None))
            [(text_message (message_from 8 "096"), at_time 11 platform_audio_down)]
            after_empty_upload _).
  by eexists.
Defined.

Lemma USERS_are_start_senders_witness :
  awaited (handle (H := ascii_interpreter) (sample_cfg (Some 1))
             (stats_command (message_from 1 "/stats"))
             (at_time 30 (platform_up (py "F1")))
             (run (H := ascii_interpreter) (sample_cfg (Some 1))
                [(start_command (message_from 7 "/start"), at_time 10 (platform_up (py "F1")));
                 (start_command (message_from 8 "/start"), at_time 11 platform_audio_down);
                 (start_command (message_from 7 "/start"), at_time 12 (platform_up (py "F1")));
                 (text_message (message_from 9 "096"), at_time 13 (platform_up (py "F1")))]
                initial)).2
  = [answer (py "Users: 2") false].
Proof.
  refine (proj2 (USERS_are_start_senders (H := ascii_interpreter) (sample_cfg (Some 1))
            [(start_command (message_from 7 "/start"), at_time 10 (platform_up (py "F1")));
             (start_command (message_from 8 "/start"), at_time 11 platform_audio_down);
             (start_command (message_from 7 "/start"), at_time 12 (platform_up (py "F1")));
             (text_message (message_from 9 "096"), at_time 13 (platform_up (py "F1")))]
            initial)
            (message_from 1 "/stats") (at_time 30 (platform_up (py "F1"))) 1 _ _ _).
  - reflexivity.
  - discriminate.
  - reflexivity.
Defined.

(** ** Stripping *)

Lemma lstrip_spaces (l s : str) :
  forallb isspace l = true → lstrip (l ++ s) = lstrip s.
Proof.
  induction l as [|c l IH]; [done|]. cbn [forallb app lstrip].
  intros [Hc Hl]%andb_true_iff. rewrite Hc. by apply IH.
Qed.

(** What [lstrip] removes is whitespace. *)
Lemma lstrip_split (s : str) :
  ∃ l, s = l ++ lstrip s ∧ forallb isspace l = true.
Proof.
  induction s as [|c s (l & Hs & Hl)]; [by exists []|]. cbn [lstrip].
  destruct (isspace c) eqn:Hc.
  - exists (c :: l). cbn [app forallb]. rewrite Hc, Hl. split; [|done].
    by rewrite <- Hs.
  - by exists [].
Qed.

Lemma lstrip_head (s : str) (c : N) :
  head (lstrip s) = Some c → isspace c = false.
Proof.
  induction s as [|c0 s IH]; [done|]. cbn [lstrip].
  destruct (isspace c0) eqn:Hc0; [done|]. by intros [= <-].
Qed.

Lemma forallb_rev_true {A} (f : A → bool) (l : list A) :
  forallb f l = true → forallb f (rev l) = true.
Proof.
  rewrite !forallb_forall. intros Hl x Hx. apply Hl. by apply in_rev.
Qed.

Lemma rstrip_spaces (s r : str) :
  forallb isspace r = true → rstrip (s ++ r) = rstrip s.
Proof.
  intros Hr. unfold rstrip. rewrite rev_app_distr.
  by rewrite lstrip_spaces by by apply forallb_rev_true.
Qed.

(** What [rstrip] removes is whitespace. *)
Lemma rstrip_split (s : str) :
  ∃ r, s = rstrip s ++ r ∧ forallb isspace r = true.
Proof.
  unfold rstrip. destruct (lstrip_split (rev s)) as (l & Hs & Hl).
  exists (rev l). split; [|by apply forallb_rev_true].
  rewrite <- rev_app_distr, <- Hs. by rewrite rev_involutive.
Qed.

Lemma rstrip_last (s : str) (c : N) :
  last (rstrip s) = Some c → isspace c = false.
Proof.
  unfold rstrip. destruct (lstrip (rev s)) as [|c0 l] eqn:E; [done|].
  cbn [rev]. rewrite last_snoc. intros [= <-].
  apply (lstrip_head (rev s)). by rewrite E.
Qed.

(** A stripped string is the middle of the string, between whitespace, and
    neither begins nor ends with whitespace. *)
Lemma strip_split (s : str) :
  (∃ l r, s = l ++ strip s ++ r
        ∧ forallb isspace l = true ∧ forallb isspace r = true)
  ∧ (∀ c, head (strip s) = Some c → isspace c = false)
  ∧ (∀ c, last (strip s) = Some c → isspace c = false).
Proof.
  unfold strip.
  destruct (lstrip_split s) as (l & Hs & Hl).
  destruct (rstrip_split (lstrip s)) as (r & Hs' & Hr).
  split_and!.
  - exists l, r. split_and!; try done. by rewrite <- Hs', <- Hs.
  - intros c Hc. apply (lstrip_head s). rewrite Hs'.
    destruct (rstrip (lstrip s)); [done|]. exact Hc.
  - apply rstrip_last.
Qed.

(** ** The keyword test *)

Lemma ascii_tolower_digit (c d : N) :
  (d < 65)%N → ascii_tolower c = d → c = d.
Proof.
  unfold ascii_tolower. intros Hd.
  destruct ((65 <=? c)%N && (c <=? 90)%N) eqn:Hc; [|done].
  apply andb_true_iff in Hc as [Hlo%N.leb_le _]. lia.
Qed.

Section KeywordText.
Context `{Interpreter}.

Lemma lower_096 (s : str) :
  forallb is_ascii s = true → lower s = py "096" → s = py "096".
Proof.
  intros Hascii. unfold lower. rewrite Hascii.
  change (py "096") with [48; 57; 54]%N.
  destruct s as [|a [|b [|c [|]]]]; try discriminate.
  cbn [map]. intros [= Ha Hb Hc].
  apply ascii_tolower_digit in Ha, Hb, Hc; [|lia..]. by subst.
Qed.

(** X11. The keyword test ignores whitespace around the text, whatever its
    amount and kind, Unicode whitespace included: any text made of 096
    between whitespace passes it. For a text of ASCII characters the
    converse holds: a text passes only if it is 096 between whitespace, so
    neither inner whitespace nor other characters, letters included, are
    tolerated. *)
Theorem keyword_text_whitespace (user_id : Z) :
  (∀ l r, forallb isspace l = true → forallb isspace r = true →
     keyword_text {| from_user_id := user_id;
                     message_text := Some (l ++ py "096" ++ r) |} = py "096")
  ∧ (∀ t, forallb is_ascii t = true →
       keyword_text {| from_user_id := user_id; message_text := Some t |} = py "096" →
       ∃ l r, t = l ++ py "096" ++ r
            ∧ forallb isspace l = true ∧ forallb isspace r = true).
Proof.
  split.
  - intros l r Hl Hr.
    change (keyword_text _) with (lower (strip (l ++ py "096" ++ r))).
    unfold strip. rewrite (lstrip_spaces l _ Hl).
    change (py "096") with [48; 57; 54]%N.
    change (lstrip ([48; 57; 54]%N ++ r)) with ([48; 57; 54]%N ++ r).
    by rewrite (rstrip_spaces _ r Hr).
  - intros t Hascii. change (keyword_text _) with (lower (strip t)).
    destruct (strip_split t) as [(l & r & Ht & Hl & Hr) _].
    intros Hkw. exists l, r. split_and!; try done.
    rewrite <- (lower_096 (strip t)); [done| |done].
    rewrite Ht, !forallb_app in Hascii.
    by apply andb_true_iff in Hascii as [_ [? _]%andb_true_iff].
Qed.

End KeywordText.

Lemma keyword_text_whitespace_witness :
  keyword_text (H := ascii_interpreter)
    {| from_user_id := 7;
       message_text := Some ([9; 160; 8195]%N ++ py "096" ++ [10; 12288]%N) |}
  = py "096".
Proof.
  refine (proj1 (keyword_text_whitespace (H := ascii_interpreter) 7)
            [9; 160; 8195]%N [10; 12288]%N _ _); reflexivity.
Defined.

(** ** Configuration, further *)

Section ConfigurationErrors.
Context `{Interpreter} {library : Library}.

(** X12. [load_config] raises in two cases only: when [BOT_TOKEN] is absent
    or empty once stripped, with the fixed message, and when [ADMIN_ID],
    stripped, passes [isdigit] and [int] raises on it, with the exception of
    [int] (a digit string that is not a decimal number makes start-up fail
    rather than leave the administrator unset). In both cases [main]
    has done nothing towards the platform. *)
Theorem load_config_raises (environ : gmap str str) (e : exn) :
  let token_value := strip (getenv environ (py "BOT_TOKEN") (py "")) in
  let admin := strip (getenv environ (py "ADMIN_ID") (py "")) in
  (load_config environ = Raise e
   ↔ (token_value = [] ∧ e = py "BOT_TOKEN is not set")
     ∨ (token_value ≠ [] ∧ isdigit admin = true ∧ int admin = inl e))
  ∧ (load_config environ = Raise e → main environ = (Raise e, [])).
Proof.
  intros token_value admin. split.
  - unfold load_config. fold token_value admin.
    destruct token_value as [|c tok]; cbn [str_truthy negb].
    + split; [intros [= <-]; by left|]. by intros [[_ ->]|[? _]].
    + destruct (isdigit admin).
      * destruct (int admin) as [e'|n].
        -- split; [intros [= <-]; by right|]. by intros [[? _]|(_ & _ & [= <-])].
        -- split; [done|]. by intros [[? _]|(_ & _ & ?)].
      * split; [done|]. by intros [[? _]|(_ & ? & _)].
  - intros Hraise. unfold main. by rewrite Hraise.
Qed.

(** The fields of the configuration [load_config] returns. *)
Lemma load_config_fields (environ : gmap str str) (cfg : Config) :
  load_config environ = Return cfg →
  token cfg = strip (getenv environ (py "BOT_TOKEN") (py ""))
  ∧ token cfg ≠ []
  ∧ pre_save_url cfg
    = getenv environ (py "PRE_SAVE_URL") (py "https://example.com/presave")
  ∧ channel_url cfg
    = getenv environ (py "CHANNEL_URL") (py "https://t.me/your_channel").
Proof.
  unfold load_config.
  destruct (strip (getenv environ (py "BOT_TOKEN") (py ""))) as [|c tok];
    cbn [str_truthy negb]; [done|].
  destruct (isdigit _); [destruct (int _); [done|]|]; by intros [= <-].
Qed.

(** X13. In the configuration [load_config] returns, the token is the
    stripped value of [BOT_TOKEN]: it is not empty and neither begins nor
    ends with whitespace. The two URLs, when their variables are set, are
    taken as they are, with no stripping and no check, an empty value
    included. *)
Theorem load_config_values (environ : gmap str str) (cfg : Config) :
  load_config environ = Return cfg →
  token cfg ≠ []
  ∧ (∀ c, head (token cfg) = Some c → isspace c = false)
  ∧ (∀ c, last (token cfg) = Some c → isspace c = false)
  ∧ (∃ l r, getenv environ (py "BOT_TOKEN") (py "") = l ++ token cfg ++ r
          ∧ forallb isspace l = true ∧ forallb isspace r = true)
  ∧ (∀ v, environ !! py "PRE_SAVE_URL" = Some v → pre_save_url cfg = v)
  ∧ (∀ v, environ !! py "CHANNEL_URL" = Some v → channel_url cfg = v).
Proof.
  intros (Htok & Hne & Hpre & Hch)%load_config_fields.
  destruct (strip_split (getenv environ (py "BOT_TOKEN") (py "")))
    as (Hsplit & Hhead & Hlast).
  rewrite <- Htok in Hsplit, Hhead, Hlast.
  split_and!; try done.
  - intros v Hv. rewrite Hpre. unfold getenv. by rewrite Hv.
  - intros v Hv. rewrite Hch. unfold getenv. by rewrite Hv.
Qed.

(** X14. [main] calls the constructor of the bot exactly when [load_config]
    returns, and with the token of the configuration returned, which is
    never empty and never begins or ends with whitespace. When the
    constructor raises, [main] raises that exception without polling; it
    starts polling exactly when [load_config] returned and the constructor
    accepted the token. *)
Theorem main_token (environ : gmap str str) :
  (∀ t, make_bot t ∈ (main environ).2 →
     (∃ cfg, load_config environ = Return cfg ∧ token cfg = t)
     ∧ t ≠ []
     ∧ (∀ c, head t = Some c → isspace c = false)
     ∧ (∀ c, last t = Some c → isspace c = false))
  ∧ (∀ cfg, load_config environ = Return cfg →
       main environ
       = match Bot_init (token cfg) with
         | inl e => (Raise e, [make_bot (token cfg)])
         | inr _ => (Return (), [make_bot (token cfg); start_polling])
         end)
  ∧ (start_polling ∈ (main environ).2
     ↔ ∃ cfg, load_config environ = Return cfg ∧ Bot_init (token cfg) = inr ()).
Proof.
  unfold main. destruct (load_config environ) as [cfg|e] eqn:Hcfg.
  - pose proof Hcfg as (Htok & Hne & _)%load_config_fields.
    destruct (strip_split (getenv environ (py "BOT_TOKEN") (py "")))
      as (_ & Hhead & Hlast).
    rewrite <- Htok in Hhead, Hlast.
    split_and!.
    + intros t Hin.
      assert (t = token cfg) as ->.
      { destruct (Bot_init (token cfg)); call_in Hin; by injection Hin. }
      split_and!; eauto.
    + by intros cfg' [= <-].
    + split.
      * intros Hin. exists cfg. split; [done|].
        destruct (Bot_init (token cfg)) as [e|[]]; [call_in Hin|done].
      * intros (cfg' & [= <-] & ->).
        apply list_elem_of_In. cbn [snd In]. auto.
  - split_and!.
    + by intros t Hin%elem_of_nil.
    + done.
    + split; [by intros Hin%elem_of_nil|by intros (cfg & [=] & _)].
Qed.

End ConfigurationErrors.

Lemma load_config_raises_witness :
  main (H := ascii_interpreter) (library := colon_library)
    {[ py "ADMIN_ID" := py "42" ]}
  = (Raise (py "BOT_TOKEN is not set"), []).
Proof.
  refine (proj2 (load_config_raises (H := ascii_interpreter)
            (library := colon_library)
            {[ py "ADMIN_ID" := py "42" ]} (py "BOT_TOKEN is not set")) _).
  reflexivity.
Defined.

Lemma load_config_values_witness :
  pre_save_url (sample_cfg (Some 42)) = py "https://example.com/presave".
Proof.
  refine (proj1 (proj2 (proj2 (proj2 (proj2 (load_config_values (H := ascii_interpreter)
            {[ py "BOT_TOKEN" := py " 1:t ";
               py "ADMIN_ID" := py " 42 ";
               py "PRE_SAVE_URL" := py "https://example.com/presave" ]}
            (sample_cfg (Some 42)) _))))) _ _).
  - vm_compute. reflexivity.
  - vm_compute. reflexivity.
Defined.

(** A token without a colon is stripped, handed to the constructor and
    rejected by the sample library: [main] raises and does not poll. *)
Lemma main_token_witness :
  main (H := ascii_interpreter) (library := colon_library)
    {[ py "BOT_TOKEN" := py " abc " ]}
  = (Raise (py "Token is invalid!"), [make_bot (py "abc")]).
Proof.
  refine (proj1 (proj2 (main_token (H := ascii_interpreter)
            (library := colon_library) {[ py "BOT_TOKEN" := py " abc " ]}))
            {| token := py "abc"; admin_id := None;
               pre_save_url := py "https://example.com/presave";
               channel_url := py "https://t.me/your_channel";
               audio_path := default_audio_path |} _).
  vm_compute. reflexivity.
Defined.

(** ** The retry message *)

Lemma on_start_except_retry (cfg : Config) (e : exn) (env : Env) (w : World) :
  answer RETRY_TEXT false ∈ awaited (on_start_except cfg e env w).2.
Proof.
  rewrite on_start_except_eq. cbv zeta.
  destruct (platform env (answer RETRY_TEXT false)); cbn [snd awaited].
  - apply elem_of_app. right. by apply list_elem_of_singleton.
  - destruct (opt_int_truthy (admin_id cfg)); cbn [snd awaited].
    + apply elem_of_app. left. apply elem_of_app. right.
      by apply list_elem_of_singleton.
    + apply elem_of_app. right. by apply list_elem_of_singleton.
Qed.

Section Retry.
Context `{Interpreter}.

(** X15. The retry message is sent exactly when a start command was
    admitted, its welcome text went through and its audio send failed (the
    send raised, or the uploaded message came back without a file id): no
    other handler sends it, and [on_start] never sends it after an audio
    send that succeeded, nor when the welcome text failed. *)
Theorem retry_exactly_after_audio_failure (cfg : Config) (u : Update) (env : Env)
    (g : Globals) :
  answer RETRY_TEXT false ∈ awaited (handle cfg u env g).2
  ↔ ∃ m e welcome,
      u = start_command m
      ∧ (throttled (time_time env) (from_user_id m) g).1 = false
      ∧ platform env (answer WELCOME_TEXT true) = inr welcome
      ∧ (send_audio cfg (main_kb (pre_save_url cfg) (channel_url cfg)) env
           {| globals := started (time_time env) (from_user_id m) g;
              awaited := [answer WELCOME_TEXT true] |}).1 = Raise e.
Proof.
  split.
  - unfold handle, dispatch. destruct u as [m|m|m|m].
    + destruct (throttled (time_time env) (from_user_id m) g).1 eqn:Ht.
      { rewrite (on_start_throttled _ _ _ _ Ht). by intros ?%elem_of_nil. }
      rewrite (on_start_admitted _ _ _ _ Ht). cbv zeta.
      destruct (platform env (answer WELCOME_TEXT true)) as [e|welcome] eqn:Hw.
      { intros Hin. call_in Hin. }
      destruct (send_audio_effect cfg (main_kb (pre_save_url cfg) (channel_url cfg)) env
                  {| globals := started (time_time env) (from_user_id m) g;
                     awaited := [answer WELCOME_TEXT true] |}) as (a & Haw & _).
      destruct (send_audio _ _ _ _) as [[[]|e] w2] eqn:Hsend; cbn [snd awaited] in Haw.
      { cbn [snd]. rewrite Haw. intros Hin. call_in Hin. }
      intros _. exists m, e, welcome. split_and!; try done. by rewrite Hsend.
    + rewrite on_help_eq. intros Hin. call_in Hin.
    + rewrite on_stats_eq. cbn [snd awaited]. unfold stats_reply.
      destruct (opt_int_truthy _ && _); intros Hin; call_in Hin.
    + destruct (on_keyword_cases m cfg env g) as [[_ Ha]|(a & Ha)];
        cbv zeta in Ha; rewrite Ha; intros Hin; call_in Hin.
  - intros (m & e & welcome & -> & Ht & Hw & Hsend). unfold handle, dispatch.
    rewrite (on_start_audio_failure _ _ _ _ _ _ Ht Hw Hsend).
    apply on_start_except_retry.
Qed.

End Retry.

Lemma retry_exactly_after_audio_failure_witness :
  answer RETRY_TEXT false
  ∈ awaited (handle (H := ascii_interpreter) (sample_cfg None)
               (start_command (message_from 7 "/start"))
               (at_time 10 platform_audio_down) initial).2.
Proof.
  refine (proj2 (retry_exactly_after_audio_failure (H := ascii_interpreter)
            (sample_cfg None) (start_command (message_from 7 "/start"))
            (at_time 10 platform_audio_down) initial) _).
  exists (message_from 7 "/start"), (py "Bad Gateway"), {| audio := None |}.
  split_and!; reflexivity.
Defined.
